(** * The JWT authentication gate of the doris middleware package

    A shallow embedding of [middleware.JWTWithConfig] and its four token
    extractors, of the request logger, and of the error tables of package
    [doris] they use.  Go packages are rendered as modules: [jwt] holds the
    values exchanged with the external token verifier, [doris] the framework
    context and the error tables, [middleware] the gate and the logger. *)

From Stdlib Require Import ZArith Lia Ascii.
From stdpp Require Import base strings gmap.

(** ** Go values shared by the packages *)

(** A Go [error]: either a plain message ([errors.New], [fmt.Errorf]) or the
    verifier's [*jwt.ValidationError], which carries the text its [Error()]
    method returns and the [Errors] bit field (a uint32). *)
Inductive error :=
| errorString (s : string)
| ValidationError (text : string) (Errors : Z).

Definition Error (e : error) : string :=
  match e with
  | errorString s => s
  | ValidationError text _ => text
  end.

(** Ways in which a Go function stops without returning. *)
Inductive panic :=
| NilDereference
| InterfaceConversion (found : string)
| IndexOutOfRange
| PanicMsg (msg : string).

Module http.
Definition StatusBadRequest : Z := 400.
Definition StatusUnauthorized : Z := 401.
Definition StatusOK : Z := 200.
Definition StatusForbidden : Z := 403.
Definition StatusNotFound : Z := 404.
Definition StatusMethodNotAllowed : Z := 405.
Definition StatusRequestTimeout : Z := 408.
Definition StatusRequestEntityTooLarge : Z := 413.
Definition StatusUnsupportedMediaType : Z := 415.
Definition StatusTooManyRequests : Z := 429.
Definition StatusInternalServerError : Z := 500.
Definition StatusBadGateway : Z := 502.
Definition StatusServiceUnavailable : Z := 503.
End http.

(** ** Package jwt: what the gate sees of the external verifier *)
Module jwt.

(** A dynamically typed value ([interface{}]) found in a token header or in a
    claim map.  [IOther] stands for any value that is neither nil, a string
    nor a bool, carried with its [%v] rendering. *)
Inductive iface :=
| INil
| IString (s : string)
| IBool (b : bool)
| IOther (repr : string).

Definition fmt_v (v : iface) : string :=
  match v with
  | INil => "<nil>"
  | IString s => s
  | IBool true => "true"
  | IBool false => "false"
  | IOther repr => repr
  end.

(** Name of the dynamic type, as a failed type assertion reports it. *)
Definition type_name (v : iface) : string :=
  match v with
  | INil => "nil"
  | IString _ => "string"
  | IBool _ => "bool"
  | IOther _ => "other"
  end.

(** The [jwt.Claims] interface: the nil interface, the generic claim map, or
    a user-defined claims structure (named by its type). *)
Inductive Claims :=
| NilClaims
| MapClaims (m : gmap string iface)
| CustomClaims (ty : string) (fields : gmap string iface).

(** [*jwt.Token]; [Alg] is what [t.Method.Alg()] returns. *)
Record Token := {
  Raw : string;
  Alg : string;
  Header : gmap string iface;
  claims : Claims;
  Signature : string;
  Valid : bool
}.

(** Bits of [ValidationError.Errors]. *)
Definition ValidationErrorMalformed : Z := Z.shiftl 1 0.
Definition ValidationErrorUnverifiable : Z := Z.shiftl 1 1.
Definition ValidationErrorSignatureInvalid : Z := Z.shiftl 1 2.
Definition ValidationErrorAudience : Z := Z.shiftl 1 3.
Definition ValidationErrorExpired : Z := Z.shiftl 1 4.
Definition ValidationErrorIssuedAt : Z := Z.shiftl 1 5.
Definition ValidationErrorIssuer : Z := Z.shiftl 1 6.
Definition ValidationErrorNotValidYet : Z := Z.shiftl 1 7.
Definition ValidationErrorId : Z := Z.shiftl 1 8.
Definition ValidationErrorClaimsInvalid : Z := Z.shiftl 1 9.

(** [jwt.Keyfunc]: the key to verify with, or an error. *)
Definition Keyfunc : Type := Token -> string + error.

(** The verifier entry point [ParseWithClaims(tokenString, claims, keyFunc)]:
    a possibly nil token and a possibly nil error. *)
Definition Parser : Type := string -> Claims -> Keyfunc -> option Token * option error.

(** [jwt.Parse] is [ParseWithClaims] at an empty generic claim map. *)
Definition Parse (P : Parser) (tokenString : string) (keyFunc : Keyfunc) :
  option Token * option error :=
  P tokenString (MapClaims ∅) keyFunc.

(** *** The verifier's order of steps

    The verifier is an external library; its decoding, claim validation and
    signature check are kept abstract here.  What the gate relies on is the
    order in which [ParseWithClaims] consults them and the key function:
    decode, then ask the key function, then validate the claims, then check
    the signature with the key obtained. *)
Section Verifier.

(** [ParseUnverified]: the decoded token, or an error together with whatever
    token (possibly nil) was built before the failure. *)
Variable ParseUnverified : string -> Claims -> option Token * option error.
(** [token.Claims.Valid()]. *)
Variable ClaimsValid : Claims -> option error.
(** [token.Method.Verify(signingString, signature, key)]. *)
Variable Verify : Token -> string -> option error.

Definition set_Valid (t : Token) : Token :=
  {| Raw := Raw t; Alg := Alg t; Header := Header t; claims := claims t;
     Signature := Signature t; Valid := true |}.

Definition ParseWithClaims : Parser := fun tokenString cl keyFunc =>
  match ParseUnverified tokenString cl with
  | (token, Some err) => (token, Some err)
  | (None, None) => (None, None)
  | (Some token, None) =>
      (* Lookup key *)
      match keyFunc token with
      | inr (ValidationError text Errors) =>
          (Some token, Some (ValidationError text Errors))
      | inr err =>
          (Some token, Some (ValidationError (Error err) ValidationErrorUnverifiable))
      | inl key =>
          (* Validate Claims *)
          let vErr :=
            match ClaimsValid (claims token) with
            | None => ("", 0%Z)
            | Some (ValidationError text Errors) => (text, Errors)
            | Some err => (Error err, ValidationErrorClaimsInvalid)
            end in
          (* Perform validation *)
          let vErr :=
            match Verify token key with
            | Some err => (Error err, Z.lor vErr.2 ValidationErrorSignatureInvalid)
            | None => vErr
            end in
          if (vErr.2 =? 0)%Z then (Some (set_Valid token), None)
          else (Some token, Some (ValidationError vErr.1 vErr.2))
      end
  end.

End Verifier.

End jwt.

(** ** Package doris: error table and request context *)
Module doris.

(* Define jwt Errors *)
Definition TokenExpiredErr : error := errorString "Token is expired".
Definition TokenNotValidYetErr : error := errorString "Token not active yet".
Definition TokenMalformedErr : error := errorString "That's not even a token".
Definition TokenInvalidErr : error := errorString "Couldn't handle this token:".
Definition JWTMissingErr : error := errorString "Missing or Malformed JWT".
Definition TokenRefreshErr : error := errorString "This token is for refresh!".

(* define jwt err code *)
Definition TokenExpired : Z := 10400.
Definition TokenNotValidYet : Z := 10401.
Definition TokenMalformed : Z := 10402.
Definition TokenInvalid : Z := 10403.
Definition JWTMissing : Z := 10404.
Definition TokenRefresh : Z := 10405.

(** Modelled from the spec: the package variable [doris.Authorization], the
    name of the default token header ("default {header, Authorization}"). *)
Definition Authorization : string := "Authorization".

(** A value kept in request-scoped storage. *)
Inductive Param :=
| PNil
| PString (s : string)
| PToken (t : jwt.Token).

(** The body [doris.D{"code": ..., "message": ...}] of an error response, or
    a plain text body written by some other handler. *)
Inductive Body :=
| D (code : Z) (message : string)
| Text (s : string).

Record Written := { Status : Z; Payload : Body }.

Record Request := {
  Headers : gmap string string;
  Query : gmap string string;
  Cookies : gmap string string
}.

(** Modelled from the spec: the request/response context of the framework
    ("exposes header/query/path-param/cookie accessors, a way to store
    arbitrary key-value request-scoped data, a way to halt further handler
    execution, and a way to write a structured (status code + body)
    response").  [Response] lists the bodies written so far, oldest first. *)
Record Context := {
  Req : Request;
  Params : gmap string Param;
  Response : list Written;
  Aborted : bool
}.

(** Modelled from the spec: [getHeader]; an absent header reads as the empty
    string, as [http.Header.Get] does.  Names are taken in canonical form. *)
Definition Header_Get (c : Context) (name : string) : string :=
  default "" (Headers (Req c) !! name).

(** Modelled from the spec: [getQueryParam]; "empty/absent is MissingToken". *)
Definition QueryParam (c : Context) (name : string) : string :=
  default "" (Query (Req c) !! name).

(** Modelled from the spec: [getPathParam]/[getRequestLocal]; an absent
    parameter reads as the empty string ("empty/absent is MissingToken"). *)
Definition GetParam (c : Context) (name : string) : Param :=
  default (PString "") (Params c !! name).

(** Modelled from the spec: [getCookie]; "any retrieval error (including not
    present)" is reported as an error. *)
Definition Cookie (c : Context) (name : string) : string * option error :=
  match Cookies (Req c) !! name with
  | Some v => (v, None)
  | None => ("", Some (errorString "http: named cookie not present"))
  end.

(** Modelled from the spec: [setRequestLocal(key, value)]. *)
Definition SetParam (key : string) (v : Param) (c : Context) : Context :=
  {| Req := Req c; Params := <[key := v]> (Params c);
     Response := Response c; Aborted := Aborted c |}.

(** Modelled from the spec: [writeJSON(status, body)]. *)
Definition Json (status : Z) (body : Body) (c : Context) : Context :=
  {| Req := Req c; Params := Params c;
     Response := Response c ++ [{| Status := status; Payload := body |}];
     Aborted := Aborted c |}.

(** Modelled from the spec: [haltChain()]. *)
Definition Abort (c : Context) : Context :=
  {| Req := Req c; Params := Params c; Response := Response c; Aborted := true |}.

(* Errors *)
Definition HTTPErrorMessages : gmap Z error := list_to_map [
  (http.StatusOK, errorString "Success");
  (http.StatusUnsupportedMediaType, errorString "Unsupported mediatype");
  (http.StatusNotFound, errorString "Not found");
  (http.StatusUnauthorized, errorString "Unauthorized");
  (http.StatusForbidden, errorString "Forbidden");
  (http.StatusMethodNotAllowed, errorString "Method not allowed");
  (http.StatusRequestEntityTooLarge, errorString "Request entity too large");
  (http.StatusTooManyRequests, errorString "Too many requests");
  (http.StatusBadRequest, errorString "Bad request");
  (http.StatusBadGateway, errorString "Bad gateway");
  (http.StatusInternalServerError, errorString "Internal server error");
  (http.StatusRequestTimeout, errorString "Request timeout");
  (http.StatusServiceUnavailable, errorString "Service unavailable")
].

End doris.

(** ** Package middleware: the gate *)
Module middleware.
Import doris.

(** *** Effects

    A handler runs on a [World]: the framework context it mutates, and the
    ordered record of the calls it made on its collaborators.  It either
    returns or panics. *)
Inductive Event :=
| EvNext
| EvExtract
| EvParse (auth : string)
| EvSetParam (key : string) (v : Param)
| EvSuccessHandler
| EvErrorHandler (err : option error)
| EvErrorHandlerWithContext (err : option error)
| EvJson (status : Z) (body : Body)
| EvAbort.

Record World := { ctx : Context; log : list Event }.

Inductive Res (A : Type) :=
| Done (a : A) (w : World)
| Panicked (p : panic) (w : World).
Arguments Done {A} a w.
Arguments Panicked {A} p w.

Definition M (A : Type) : Type := World -> Res A.

#[global] Instance M_ret : MRet M := fun A a w => Done a w.
#[global] Instance M_bind : MBind M := fun A B f m w =>
  match m w with
  | Done a w' => f a w'
  | Panicked p w' => Panicked p w'
  end.

Definition raise {A} (p : panic) : M A := fun w => Panicked p w.
Definition get_ctx : M Context := fun w => Done (ctx w) w.
Definition act (e : Event) (f : Context -> Context) : M unit :=
  fun w => Done tt {| ctx := f (ctx w); log := log w ++ [e] |}.

Definition c_Json (status : Z) (body : Body) : M unit :=
  act (EvJson status body) (Json status body).
Definition c_Abort : M unit := act EvAbort Abort.
Definition c_SetParam (key : string) (v : Param) : M unit :=
  act (EvSetParam key v) (SetParam key v).

(** A handler returns a possibly nil error. *)
Definition HandlerFunc : Type := M (option error).

(** Runs a handler on a context, from an empty record of calls. *)
Definition serve (h : HandlerFunc) (c : Context) : Res (option error) :=
  h {| ctx := c; log := [] |}.

(** *** Configuration *)

Definition Skipper : Type := Context -> bool.
Definition JWTSuccessHandler : Type := Context -> Context.
Definition JWTErrorHandler : Type := option error -> option error.
Definition JWTErrorHandlerWithContext : Type :=
  option error -> Context -> Context * option error.

(** An extractor reads the context; the path-parameter one can panic. *)
Definition jwtExtractor : Type := Context -> panic + string * option error.

(** [JWTConfig]; a nil function or key is [None], nil claims are
    [jwt.NilClaims], an unset string is empty. *)
Record JWTConfig := {
  skipper : option Skipper;
  SuccessHandler : option JWTSuccessHandler;
  ErrorHandler : option JWTErrorHandler;
  ErrorHandlerWithContext : option JWTErrorHandlerWithContext;
  SigningKey : option string;
  SigningMethod : string;
  ContextKey : string;
  Claims : jwt.Claims;
  TokenLookup : string;
  AuthScheme : string
}.

(* Default Algorithms *)
Definition AlgorithmHS256 : string := "HS256".

(** DefaultSkipper returns false which processes the middleware. *)
Definition DefaultSkipper : Skipper := fun _ => false.

(** DefaultJWTConfig is the default JWT auth middleware config. *)
Definition DefaultJWTConfig : JWTConfig := {|
  skipper := Some DefaultSkipper;
  SuccessHandler := None;
  ErrorHandler := None;
  ErrorHandlerWithContext := None;
  SigningKey := None;
  SigningMethod := AlgorithmHS256;
  ContextKey := "user";
  Claims := jwt.MapClaims ∅;
  TokenLookup := "header:" +:+ Authorization;
  AuthScheme := "Bearer"
|}.

(** *** Token extraction *)

(** Go slices of a string: [s[:n]] and [s[n:]], for [n] within bounds. *)
Definition slice_to (n : nat) (s : string) : string := String.substring 0 n s.
Definition slice_from (n : nat) (s : string) : string :=
  String.substring n (String.length s - n) s.

(** jwtFromHeader returns a `jwtExtractor` that extracts token from the request header. *)
Definition jwtFromHeader (header authScheme : string) : jwtExtractor := fun c =>
  let auth := Header_Get c header in
  let l := String.length authScheme in
  if (l + 1 <? String.length auth)%nat && String.eqb (slice_to l auth) authScheme
  then inr (slice_from (l + 1) auth, None)
  else inr ("", Some JWTMissingErr).

(** jwtFromQuery returns a `jwtExtractor` that extracts token from the query string. *)
Definition jwtFromQuery (param : string) : jwtExtractor := fun c =>
  let token := QueryParam c param in
  if String.eqb token "" then inr ("", Some JWTMissingErr)
  else inr (token, None).

(** jwtFromParam returns a `jwtExtractor` that extracts token from the url param string. *)
Definition jwtFromParam (param : string) : jwtExtractor := fun c =>
  match GetParam c param with
  | PString s =>
      if String.eqb s "" then inr ("", Some JWTMissingErr) else inr (s, None)
  | PNil => inl (InterfaceConversion "nil")
  | PToken _ => inl (InterfaceConversion "*jwt.Token")
  end.

(** jwtFromCookie returns a `jwtExtractor` that extracts token from the named cookie. *)
Definition jwtFromCookie (name : string) : jwtExtractor := fun c =>
  match Cookie c name with
  | (_, Some _) => inr ("", Some JWTMissingErr)
  | (cookie, None) => inr (cookie, None)
  end.

(** [strings.Split(s, sep)] for a one-byte separator. *)
Fixpoint Split (sep : Ascii.ascii) (s : string) : list string :=
  match s with
  | EmptyString => [""]
  | String a s' =>
      if Ascii.eqb a sep then "" :: Split sep s'
      else match Split sep s' with
           | p :: ps => String a p :: ps
           | [] => [String a ""]
           end
  end.

(** *** Key resolution and error classification *)

(** The key function built at setup: checks the signing method, then hands
    out the configured key. *)
Definition keyFunc (SigningMethod : string) (SigningKey : string) : jwt.Keyfunc :=
  fun t =>
    if negb (String.eqb (jwt.Alg t) SigningMethod)
    then inr (errorString ("unexpected jwt signing method=" +:+
                           jwt.fmt_v (default jwt.INil (jwt.Header t !! "alg"))))
    else inl SigningKey.

(** The [check err type of jwt] block: updates [code] and [errMsg] when [err]
    is a validation error, by the first of its flags that is set. *)
Definition classify (err : option error) (code : Z) (errMsg : option error) :
  Z * option error :=
  match err with
  | Some (ValidationError _ Errors) =>
      if negb (Z.land Errors jwt.ValidationErrorMalformed =? 0)%Z
      then (TokenMalformed, Some TokenMalformedErr)
      else if negb (Z.land Errors jwt.ValidationErrorExpired =? 0)%Z
      then (TokenExpired, Some TokenExpiredErr)
      else if negb (Z.land Errors jwt.ValidationErrorNotValidYet =? 0)%Z
      then (TokenNotValidYet, Some TokenNotValidYetErr)
      else (TokenInvalid, Some TokenInvalidErr)
  | _ => (code, errMsg)
  end.

(** *** The request gate *)

Section Gate.

(** Modelled from the spec: [callNextHandler()], the rest of the handler
    chain, as a transformation of the context. *)
Variable Next : Context -> Context.

(** The external verifier. *)
Variable ParseWithClaims : jwt.Parser.

Definition c_Next : M unit := act EvNext Next.

(** [config.Skipper(c)]; calling a nil function panics. *)
Definition call_Skipper (s : option Skipper) : M bool :=
  match s with
  | Some f => c ← get_ctx; mret (f c)
  | None => raise NilDereference
  end.

Definition call_extractor (extractor : jwtExtractor) : M (string * option error) :=
  fun w =>
    match extractor (ctx w) with
    | inr r => Done r {| ctx := ctx w; log := log w ++ [EvExtract] |}
    | inl p => Panicked p {| ctx := ctx w; log := log w ++ [EvExtract] |}
    end.

Definition call_SuccessHandler (h : JWTSuccessHandler) : M unit :=
  act EvSuccessHandler h.

Definition call_ErrorHandler (h : JWTErrorHandler) (err : option error) :
  M (option error) :=
  act (EvErrorHandler err) id ;; mret (h err).

Definition call_ErrorHandlerWithContext (h : JWTErrorHandlerWithContext)
  (err : option error) : M (option error) :=
  fun w =>
    let r := h err (ctx w) in
    Done r.2 {| ctx := r.1; log := log w ++ [EvErrorHandlerWithContext err] |}.

(** [reflect.New(reflect.ValueOf(config.Claims).Type().Elem()).Interface().(jwt.Claims)]:
    a fresh zero value of the configured claims structure (a pointer to a
    struct, as in the package's tests).  The gate calls it on nothing else;
    on a nil interface the reflection panics, and the element type of a
    claim map is not a claims type. *)
Definition reflect_New (cl : jwt.Claims) : M jwt.Claims :=
  match cl with
  | jwt.CustomClaims ty _ => mret (jwt.CustomClaims ty ∅)
  | jwt.MapClaims _ => raise (InterfaceConversion "*interface {}")
  | jwt.NilClaims => raise NilDereference
  end.

(** The two parsing branches (Issue #647, #656). *)
Definition parse_token (config : JWTConfig) (key : string) (auth : string) :
  M (option jwt.Token * option error) :=
  match Claims config with
  | jwt.MapClaims _ =>
      act (EvParse auth) id ;;
      mret (jwt.Parse ParseWithClaims auth (keyFunc (SigningMethod config) key))
  | cl =>
      claims ← reflect_New cl;
      act (EvParse auth) id ;;
      mret (ParseWithClaims auth claims (keyFunc (SigningMethod config) key))
  end.

(** Reading a field through the [*jwt.Token] pointer; nil panics. *)
Definition deref (token : option jwt.Token) : M jwt.Token :=
  match token with
  | Some t => mret t
  | None => raise NilDereference
  end.

(** [claims, ok := token.Claims.(jwt.MapClaims)] followed by
    [ok && claims["auth_type"].(string) == "refresh"]: on a claim map the
    entry is asserted to be a string, which panics on anything else. *)
Definition from_refresh (t : jwt.Token) : M bool :=
  match jwt.claims t with
  | jwt.MapClaims claims =>
      match default jwt.INil (claims !! "auth_type") with
      | jwt.IString s => mret (String.eqb s "refresh")
      | v => raise (InterfaceConversion (jwt.type_name v))
      end
  | _ => mret false
  end.

(** [e.Error()] on a possibly nil error. *)
Definition Error_of (e : option error) : M string :=
  match e with
  | Some e => mret (Error e)
  | None => raise NilDereference
  end.

(** [err == nil]. *)
Definition is_nil (err : option error) : bool :=
  match err with
  | None => true
  | Some _ => false
  end.

(** The middleware returned by [JWTWithConfig], for a resolved configuration,
    its signing key and its extractor. *)
Definition gate (config : JWTConfig) (key : string) (extractor : jwtExtractor) :
  HandlerFunc :=
  (* init param *)
  let code := http.StatusUnauthorized in
  let errMsg : option error := None in
  skip ← call_Skipper (skipper config);
  (if skip : bool then c_Next else mret tt) ;;
  r ← call_extractor extractor;
  let auth := r.1 in
  let err := r.2 in
  match err with
  | Some e =>
      match ErrorHandler config with
      | Some h => call_ErrorHandler h err
      | None =>
          match ErrorHandlerWithContext config with
          | Some h => call_ErrorHandlerWithContext h err
          | None =>
              (* Render error json and abort *)
              c_Json http.StatusUnauthorized
                (D http.StatusUnauthorized ("JWT ERR: " +:+ Error e)) ;;
              c_Abort ;;
              mret err
          end
      end
  | None =>
      r ← parse_token config key auth;
      let err := r.2 in
      token ← deref r.1;
      refresh ← from_refresh token;
      if refresh : bool then
        let code := TokenRefresh in
        let errMsg := TokenRefreshErr in
        c_Json http.StatusUnauthorized
          (D code ("Invalid or Expired JWT: " +:+ Error errMsg)) ;;
        c_Abort ;;
        mret (Some errMsg)
      else if is_nil err && jwt.Valid token then
        (* Store user information from token into context. *)
        c_SetParam (ContextKey config) (PToken token) ;;
        match SuccessHandler config with
        | Some h => call_SuccessHandler h
        | None => mret tt
        end ;;
        c_Next ;;
        mret None
      else
        (* check err type of jwt *)
        let ce := classify err code errMsg in
        let code := ce.1 in
        let errMsg := ce.2 in
        match ErrorHandler config with
        | Some h => call_ErrorHandler h err
        | None =>
            match ErrorHandlerWithContext config with
            | Some h => call_ErrorHandlerWithContext h err
            | None =>
                (* Render error json *)
                m1 ← Error_of errMsg;
                m2 ← Error_of err;
                c_Json http.StatusUnauthorized
                  (D code ("Invalid or Expired JWT: " +:+ m1 +:+
                           " [ origin err: " +:+ m2 +:+ " ] ")) ;;
                c_Abort ;;
                mret err
            end
        end
  end.

(** The [Defaults] block of [JWTWithConfig], apart from the signing-key
    check: every unset field takes the value of [DefaultJWTConfig]. *)
Definition defaults (config : JWTConfig) : JWTConfig := {|
  skipper := match skipper config with
             | None => skipper DefaultJWTConfig
             | s => s
             end;
  SuccessHandler := SuccessHandler config;
  ErrorHandler := ErrorHandler config;
  ErrorHandlerWithContext := ErrorHandlerWithContext config;
  SigningKey := SigningKey config;
  SigningMethod := if String.eqb (SigningMethod config) ""
                   then SigningMethod DefaultJWTConfig else SigningMethod config;
  ContextKey := if String.eqb (ContextKey config) ""
                then ContextKey DefaultJWTConfig else ContextKey config;
  Claims := match Claims config with
            | jwt.NilClaims => Claims DefaultJWTConfig
            | cl => cl
            end;
  TokenLookup := if String.eqb (TokenLookup config) ""
                 then TokenLookup DefaultJWTConfig else TokenLookup config;
  AuthScheme := if String.eqb (AuthScheme config) ""
                then AuthScheme DefaultJWTConfig else AuthScheme config
|}.

(** The [Initialize] block: the extractor named by the resolved
    [TokenLookup]; [parts[1]] panics when there is no colon. *)
Definition select_extractor (config : JWTConfig) : panic + jwtExtractor :=
  let parts := Split ":"%char (TokenLookup config) in
  match parts with
  | p0 :: p1 :: _ =>
      let extractor := jwtFromHeader p1 (AuthScheme config) in
      inr (if String.eqb p0 "query" then jwtFromQuery p1
           else if String.eqb p0 "param" then jwtFromParam p1
           else if String.eqb p0 "cookie" then jwtFromCookie p1
           else extractor)
  | _ => inl IndexOutOfRange
  end.

(** JWTWithConfig returns a JWT auth middleware with config, or panics. *)
Definition JWTWithConfig (config : JWTConfig) : panic + HandlerFunc :=
  match SigningKey config with
  | None => inl (PanicMsg "doris: jwt middleware requires signing key")
  | Some key =>
      let config := defaults config in
      match select_extractor config with
      | inl p => inl p
      | inr extractor => inr (gate config key extractor)
      end
  end.

(** JWT returns a JSON Web Token (JWT) auth middleware. *)
Definition JWT (key : option string) : panic + HandlerFunc :=
  let c := DefaultJWTConfig in
  JWTWithConfig {|
    skipper := skipper c; SuccessHandler := SuccessHandler c;
    ErrorHandler := ErrorHandler c;
    ErrorHandlerWithContext := ErrorHandlerWithContext c;
    SigningKey := key;
    SigningMethod := SigningMethod c; ContextKey := ContextKey c;
    Claims := Claims c; TokenLookup := TokenLookup c; AuthScheme := AuthScheme c
  |}.

(** Runs the middleware installed for [config] on a request context. *)
Definition run (config : JWTConfig) (c : Context) : option (Res (option error)) :=
  match JWTWithConfig config with
  | inr h => Some (serve h c)
  | inl _ => None
  end.

End Gate.

(** *** The request logger *)

(** The level a line is logged at: [l.Error] or [l.Info]. *)
Inductive Level := LevelError | LevelInfo.

(** What a run of the logger leaves: the context after the rest of the chain,
    and either the line handed to the framework's logger with the error
    returned, or a panic. *)
Inductive Logged :=
| LogReturned (c : Context) (level : Level) (line : string) (ret : option error)
| LogPanicked (c : Context) (p : panic).

Section Logging.

(** The rest of the handler chain, as for the gate. *)
Variable Next : Context -> Context.
(** [c.Response.Status()], a method of the framework's response. *)
Variable Status : Context -> Z.
(** [strconv.Itoa]. *)
Variable Itoa : Z -> string.
(** [fmt.Sprint(time.Since(begin))], the time the chain took, as printed. *)
Variable elapsed : string.
(** The request's [Host], [RemoteAddr], [UserAgent()], [Method], [RequestURI]. *)
Variables Host RemoteAddr UserAgent Method RequestURI : Context -> string.

(** The handler returned by [Logger()]: it runs the rest of the chain, builds
    the line, whose second field is the message the error table holds for the
    response status (calling [Error()] on the nil entry of a status that is
    not in the table panics), and logs it as an error from status 400 on. *)
Definition Logger (c : Context) : Logged :=
  let c := Next c in
  match HTTPErrorMessages !! Status c with
  | None => LogPanicked c NilDereference
  | Some msg =>
      let logs := Itoa (Status c) +:+ " | " +:+
                  Error msg +:+ " | " +:+
                  elapsed +:+ " | " +:+
                  Host c +:+ " | " +:+
                  RemoteAddr c +:+ " | " +:+
                  UserAgent c +:+ " | " +:+
                  Method c +:+ " | " +:+
                  RequestURI c in
      if (400 <=? Status c)%Z then LogReturned c LevelError logs None
      else LogReturned c LevelInfo logs None
  end.

End Logging.

End middleware.

(** * Vocabulary of the properties *)

Import doris middleware.

(** The world in which extraction starts: when the skipper answers true the
    next handler has already run. *)
Definition entered (Next : Context -> Context) (sk : Skipper) (w : World) : World :=
  if sk (ctx w) then {| ctx := Next (ctx w); log := log w ++ [EvNext] |} else w.

(** The same context, with more calls recorded. *)
Definition logged (w : World) (es : list Event) : World :=
  {| ctx := ctx w; log := log w ++ es |}.

(** The world after a default rejection that follows the calls [es]: a body
    written under [status], the chain halted, the storage untouched. *)
Definition answered (w : World) (es : list Event) (status : Z) (body : Body) : World :=
  {| ctx := {| Req := Req (ctx w); Params := Params (ctx w);
               Response := Response (ctx w) ++ [{| Status := status; Payload := body |}];
               Aborted := true |};
     log := log w ++ es ++ [EvJson status body; EvAbort] |}.

(** The claims value handed to the verifier. *)
Definition fresh (cl : jwt.Claims) : jwt.Claims :=
  match cl with
  | jwt.CustomClaims ty _ => jwt.CustomClaims ty ∅
  | _ => jwt.MapClaims ∅
  end.

(** What the verifier answers for [auth] under [config]. *)
Definition verified (P : jwt.Parser) (config : JWTConfig) (key auth : string) :
  option jwt.Token * option error :=
  P auth (fresh (Claims config)) (keyFunc (SigningMethod config) key).

(** The gate can read the token's [auth_type]: its claims are not a claim
    map, or the entry is a string. *)
Definition readable (t : jwt.Token) : Prop :=
  match jwt.claims t with
  | jwt.MapClaims m => exists s, m !! "auth_type" = Some (jwt.IString s)
  | _ => True
  end.

(** The gate can read the token's [auth_type], and it is not "refresh". *)
Definition plain_token (t : jwt.Token) : Prop :=
  match jwt.claims t with
  | jwt.MapClaims m => exists s, m !! "auth_type" = Some (jwt.IString s) /\ s <> "refresh"
  | _ => True
  end.

(** The verifier's answer is a rejection: an error, or a token not marked valid. *)
Definition refused (err : option error) (t : jwt.Token) : bool :=
  negb (is_nil err && jwt.Valid t).

(** The world after the admission of [t], extracted as [auth] in world [w]:
    token stored, success hook, next handler. *)
Definition passed (Next : Context -> Context) (config : JWTConfig) (auth : string)
  (t : jwt.Token) (w : World) : World :=
  let c := SetParam (ContextKey config) (PToken t) (ctx w) in
  {| ctx := Next (match SuccessHandler config with
                  | Some h => h c
                  | None => c
                  end);
     log := log w ++ [EvExtract; EvParse auth;
                      EvSetParam (ContextKey config) (PToken t)] ++
            match SuccessHandler config with
            | Some _ => [EvSuccessHandler]
            | None => []
            end ++ [EvNext] |}.

(** The configuration with its skipper replaced. *)
Definition with_skipper (sk : Skipper) (config : JWTConfig) : JWTConfig :=
  {| skipper := Some sk; SuccessHandler := SuccessHandler config;
     ErrorHandler := ErrorHandler config;
     ErrorHandlerWithContext := ErrorHandlerWithContext config;
     SigningKey := SigningKey config; SigningMethod := SigningMethod config;
     ContextKey := ContextKey config; Claims := Claims config;
     TokenLookup := TokenLookup config; AuthScheme := AuthScheme config |}.

(** The category of a validation error, in the spec's words: the first of
    Malformed (bit 0), Expired (bit 4) and NotYetValid (bit 7) that is set,
    and Generic when none is. *)
Definition by_priority (Errors : Z) : Z * error :=
  if Z.testbit Errors 0 then (10402%Z, errorString "That's not even a token")
  else if Z.testbit Errors 4 then (10400%Z, errorString "Token is expired")
  else if Z.testbit Errors 7 then (10401%Z, errorString "Token not active yet")
  else (10403%Z, errorString "Couldn't handle this token:").

(** The world a run ends in, whether it returned or panicked. *)
Definition world_of {A} (r : Res A) : World :=
  match r with
  | Done _ w => w
  | Panicked _ w => w
  end.

(** The calls a run made, in order: what it added to the record of [w]. *)
Definition calls {A} (r : Res A) (w : World) : list Event :=
  drop (length (log w)) (log (world_of r)).

Definition is_write (e : Event) : bool :=
  match e with
  | EvJson _ _ => true
  | _ => false
  end.

Definition is_hook (e : Event) : bool :=
  match e with
  | EvErrorHandler _ | EvErrorHandlerWithContext _ => true
  | _ => false
  end.

(** Every body written carries status 401 and is followed by the halt of the
    chain, after which nothing is called. *)
Fixpoint rejects_properly (es : list Event) : bool :=
  match es with
  | [] => true
  | EvJson status _ :: rest =>
      (status =? 401)%Z && match rest with
                           | [EvAbort] => true
                           | _ => false
                           end
  | _ :: rest => rejects_properly rest
  end.

(** The success hook and the next handler are called only once a token has
    been stored ([stored] tells whether one already was). *)
Fixpoint after_store (stored : bool) (es : list Event) : bool :=
  match es with
  | [] => true
  | EvSetParam _ _ :: rest => after_store true rest
  | EvNext :: rest => stored && after_store stored rest
  | EvSuccessHandler :: rest => stored && after_store stored rest
  | _ :: rest => after_store stored rest
  end.

(** The byte [b] occurs in [s]. *)
Fixpoint has_byte (b : ascii) (s : string) : bool :=
  match s with
  | EmptyString => false
  | String a s' => Ascii.eqb a b || has_byte b s'
  end.

(** The extractor that [JWTWithConfig] installs for a source and a name. *)
Definition extractor_for (source name authScheme : string) : jwtExtractor :=
  if String.eqb source "query" then jwtFromQuery name
  else if String.eqb source "param" then jwtFromParam name
  else if String.eqb source "cookie" then jwtFromCookie name
  else jwtFromHeader name authScheme.

(** The statuses for which the error table holds a message. *)
Definition known_statuses : list Z :=
  [200; 400; 401; 403; 404; 405; 408; 413; 415; 429; 500; 502; 503]%Z.

(** The token's claims are a claim map whose [auth_type] is the string
    "refresh". *)
Definition marked_refresh (t : jwt.Token) : bool :=
  match jwt.claims t with
  | jwt.MapClaims m =>
      match m !! "auth_type" with
      | Some (jwt.IString s) => String.eqb s "refresh"
      | _ => false
      end
  | _ => false
  end.

(** ** A concrete installation, for the examples

    The downstream handler is the one of the package's tests (it writes
    "test" with status 200).  The verifier is [jwt.ParseWithClaims] over a
    stand-in codec: token strings are looked up in a table, any other string
    has the wrong number of segments, claims are always in date, and a
    signature is good when it equals the key. *)
Module example.

Definition test_handler : Context -> Context :=
  fun c => {| Req := Req c; Params := Params c;
              Response := Response c ++ [{| Status := 200; Payload := Text "test" |}];
              Aborted := Aborted c |}.

Definition token (alg : string) (claims : jwt.Claims) (signature : string) : jwt.Token :=
  {| jwt.Raw := "h.p.s"; jwt.Alg := alg;
     jwt.Header := {[ "alg" := jwt.IString alg; "typ" := jwt.IString "JWT" ]};
     jwt.claims := claims; jwt.Signature := signature; jwt.Valid := false |}.

Definition access_token : jwt.Token :=
  token "HS256" (jwt.MapClaims {[ "auth_type" := jwt.IString "access" ]}) "secret".
Definition refresh_token : jwt.Token :=
  token "HS256" (jwt.MapClaims {[ "auth_type" := jwt.IString "refresh" ]}) "secret".
Definition untyped_token : jwt.Token :=
  token "HS256" (jwt.MapClaims {[ "name" := jwt.IString "John Doe" ]}) "secret".
Definition rs256_token : jwt.Token :=
  token "RS256" (jwt.MapClaims {[ "auth_type" := jwt.IString "access" ]}) "secret".

Definition tokens : gmap string jwt.Token :=
  {[ "access" := access_token; "refresh" := refresh_token;
     "untyped" := untyped_token; "rs256" := rs256_token ]}.

Definition decode : string -> jwt.Claims -> option jwt.Token * option error :=
  fun s _ =>
    match tokens !! s with
    | Some t => (Some t, None)
    | None => (None, Some (ValidationError "token contains an invalid number of segments"
                             jwt.ValidationErrorMalformed))
    end.

Definition in_date : jwt.Claims -> option error := fun _ => None.

Definition check_signature : jwt.Token -> string -> option error :=
  fun t key => if String.eqb (jwt.Signature t) key then None
               else Some (errorString "signature is invalid").

Definition verifier : jwt.Parser := jwt.ParseWithClaims decode in_date check_signature.

(** A verifier that finds every token both malformed and expired. *)
Definition malformed_and_expired : jwt.Parser := fun _ _ _ =>
  (Some access_token,
   Some (ValidationError "token is malformed and expired"
           (Z.lor jwt.ValidationErrorMalformed jwt.ValidationErrorExpired))).

(** [JWTConfig{SigningKey: []byte("secret")}] with the skipper and the error
    hook given. *)
Definition config (sk : option Skipper) (eh : option JWTErrorHandler) : JWTConfig :=
  {| skipper := sk; SuccessHandler := None; ErrorHandler := eh;
     ErrorHandlerWithContext := None; SigningKey := Some "secret";
     SigningMethod := ""; ContextKey := ""; Claims := jwt.NilClaims;
     TokenLookup := ""; AuthScheme := "" |}.

(** The gate installed for [config sk eh]: header lookup, scheme "Bearer". *)
Definition installed (sk : option Skipper) (eh : option JWTErrorHandler) : HandlerFunc :=
  gate test_handler verifier (defaults (config sk eh)) "secret"
    (jwtFromHeader "Authorization" "Bearer").

Definition always_skip : Skipper := fun _ => true.

(** A hook that replaces every error. *)
Definition custom_hook : JWTErrorHandler := fun _ => Some (errorString "custom").

(** A request with only headers. *)
Definition header_request (h : gmap string string) : Context :=
  {| Req := {| Headers := h; Query := ∅; Cookies := ∅ |};
     Params := ∅; Response := []; Aborted := false |}.

(** A request carrying [auth] in its Authorization header (none when empty),
    before any call. *)
Definition request (auth : string) : World :=
  {| ctx := header_request (if String.eqb auth "" then ∅ else {[ "Authorization" := auth ]});
     log := [] |}.

(** A verifier that returns the access token without marking it valid, and
    no error. *)
Definition silent_verifier : jwt.Parser := fun _ _ _ => (Some access_token, None).

(** A context-aware hook that records the error as a 403 answer. *)
Definition context_hook : JWTErrorHandlerWithContext := fun err c =>
  ({| Req := Req c; Params := Params c;
      Response := Response c ++ [{| Status := 403; Payload := Text "forbidden" |}];
      Aborted := Aborted c |}, None).

(** [JWTConfig{SigningKey: []byte("secret"), TokenLookup: lookup}]. *)
Definition lookup_config (lookup : string) : JWTConfig :=
  {| skipper := None; SuccessHandler := None; ErrorHandler := None;
     ErrorHandlerWithContext := None; SigningKey := Some "secret";
     SigningMethod := ""; ContextKey := ""; Claims := jwt.NilClaims;
     TokenLookup := lookup; AuthScheme := "" |}.

(** [JWTConfig{SigningKey: []byte("secret"), ErrorHandlerWithContext: h}]. *)
Definition context_hook_config : JWTConfig :=
  {| skipper := None; SuccessHandler := None; ErrorHandler := None;
     ErrorHandlerWithContext := Some context_hook; SigningKey := Some "secret";
     SigningMethod := ""; ContextKey := ""; Claims := jwt.NilClaims;
     TokenLookup := ""; AuthScheme := "" |}.

(** The status of the last body written, 200 when none was. *)
Definition last_status (c : Context) : Z :=
  match last (Response c) with
  | Some written => Status written
  | None => 200%Z
  end.

(** A token of another algorithm than the configured one, without
    [auth_type], and a verifier that decodes every string to it. *)
Definition rs256_untyped_token : jwt.Token :=
  token "RS256" (jwt.MapClaims {[ "name" := jwt.IString "John Doe" ]}) "secret".

Definition untyped_rs256_verifier : jwt.Parser :=
  jwt.ParseWithClaims (fun _ _ => (Some rs256_untyped_token, None)) in_date check_signature.

(** A verifier that finds every token both malformed and expired, and
    returns the refresh token with that error. *)
Definition malformed_and_expired_refresh : jwt.Parser := fun _ _ _ =>
  (Some refresh_token,
   Some (ValidationError "token is malformed and expired"
           (Z.lor jwt.ValidationErrorMalformed jwt.ValidationErrorExpired))).

End example.

(** * Lemmas *)

(** ** String slices *)

Lemma app_cons (a : ascii) (s t : string) : String a s +:+ t = String a (s +:+ t).
Proof. reflexivity. Qed.

Lemma substring_all (s : string) : String.substring 0 (String.length s) s = s.
Proof. induction s as [|a s IH]; simpl; [reflexivity | now rewrite IH]. Qed.

Lemma slice_to_app (s t : string) : slice_to (String.length s) (s +:+ t) = s.
Proof.
  unfold slice_to. induction s as [|a s IH].
  - destruct t; reflexivity.
  - rewrite app_cons. simpl. now rewrite IH.
Qed.

Lemma slice_from_app (s t : string) : slice_from (String.length s) (s +:+ t) = t.
Proof.
  unfold slice_from. induction s as [|a s IH].
  - change ("" +:+ t) with t. simpl. rewrite Nat.sub_0_r. apply substring_all.
  - rewrite app_cons. exact IH.
Qed.

Lemma length_app (s t : string) :
  String.length (s +:+ t) = (String.length s + String.length t)%nat.
Proof.
  induction s as [|a s IH]; [reflexivity|].
  rewrite app_cons. simpl. now rewrite IH.
Qed.

(** A string of length at least [n] splits at [n]. *)
Lemma split_at (n : nat) (s : string) :
  (n <= String.length s)%nat ->
  s = slice_to n s +:+ slice_from n s /\ String.length (slice_to n s) = n.
Proof.
  unfold slice_to, slice_from. revert s.
  induction n as [|n IH]; intros s Hn.
  - rewrite Nat.sub_0_r, substring_all. destruct s; simpl; auto.
  - destruct s as [|a s]; [simpl in Hn; lia|].
    destruct (IH s) as [E L]; [simpl in Hn; lia|].
    change (String.length (String a s) - S n)%nat with (String.length s - n)%nat.
    simpl. split; [|f_equal; exact L].
    rewrite app_cons. f_equal; exact E.
Qed.

Lemma length_zero (s : string) : String.length s = 0%nat -> s = "".
Proof. destruct s; [reflexivity | discriminate]. Qed.

Lemma app_snoc (s t : string) (a : ascii) :
  (s +:+ String a "") +:+ t = s +:+ String a t.
Proof.
  induction s as [|b s IH]; [reflexivity|].
  now rewrite !app_cons, IH.
Qed.

Lemma slice_from_after_sep (s t : string) (a : ascii) :
  slice_from (String.length s + 1) (s +:+ String a t) = t.
Proof.
  rewrite <- app_snoc.
  replace (String.length s + 1)%nat with (String.length (s +:+ String a ""))
    by (rewrite length_app; reflexivity).
  apply slice_from_app.
Qed.

(** ** Bit flags *)

(** Masking with a one-bit flag tests that bit. *)
Lemma land_flag (x : Z) (k : Z) :
  (0 <= k)%Z -> (Z.land x (Z.shiftl 1 k) =? 0)%Z = negb (Z.testbit x k).
Proof.
  intros Hk. rewrite Z.shiftl_1_l.
  destruct (Z.testbit x k) eqn:Hb; simpl.
  - apply Z.eqb_neq. intros H0.
    assert (Hk' : Z.testbit (Z.land x (2 ^ k)) k = true).
    { rewrite Z.land_spec, Hb, Z.pow2_bits_true by exact Hk. reflexivity. }
    rewrite H0, Z.bits_0 in Hk'. discriminate.
  - apply Z.eqb_eq. apply Z.bits_inj'. intros n Hn.
    rewrite Z.land_spec, Z.bits_0, Z.pow2_bits_eqb by exact Hk.
    destruct (Z.eqb_spec k n) as [->|_]; [now rewrite Hb | apply andb_false_r].
Qed.

(** The classification block is the first-match list of the spec. *)
Lemma classify_by_priority (text : string) (Errors : Z) (code : Z) (errMsg : option error) :
  classify (Some (ValidationError text Errors)) code errMsg =
  ((by_priority Errors).1, Some (by_priority Errors).2).
Proof.
  unfold classify, by_priority, jwt.ValidationErrorMalformed,
    jwt.ValidationErrorExpired, jwt.ValidationErrorNotValidYet.
  rewrite !land_flag by lia. rewrite !negb_involutive.
  destruct (Z.testbit Errors 0); [reflexivity|].
  destruct (Z.testbit Errors 4); [reflexivity|].
  destruct (Z.testbit Errors 7); reflexivity.
Qed.

(** An error that is not a validation error leaves code and message alone. *)
Lemma classify_other (err : option error) (code : Z) (errMsg : option error) :
  (forall text Errors, err <> Some (ValidationError text Errors)) ->
  classify err code errMsg = (code, errMsg).
Proof.
  intros Hne. destruct err as [[msg|text Errors]|]; try reflexivity.
  now destruct (Hne text Errors).
Qed.

(** ** The key function *)

(** The key function refuses a token of another algorithm, whatever the key. *)
Lemma keyFunc_mismatch (method key : string) (t : jwt.Token) :
  jwt.Alg t <> method ->
  keyFunc method key t =
  inr (errorString ("unexpected jwt signing method=" +:+
                    jwt.fmt_v (default jwt.INil (jwt.Header t !! "alg")))).
Proof.
  intros Hne. unfold keyFunc. apply String.eqb_neq in Hne. now rewrite Hne.
Qed.

Lemma keyFunc_match (method key : string) (t : jwt.Token) :
  jwt.Alg t = method -> keyFunc method key t = inl key.
Proof. intros <-. unfold keyFunc. now rewrite String.eqb_refl. Qed.

(** ** The paths through the gate *)

Lemma app_assoc3 {A} (l : list A) (a b : list A) : (l ++ a) ++ b = l ++ a ++ b.
Proof. now rewrite <- app_assoc. Qed.

Ltac gate_unfold :=
  unfold gate, call_Skipper, call_extractor, parse_token, reflect_New, deref,
    from_refresh, call_ErrorHandler, call_ErrorHandlerWithContext,
    call_SuccessHandler, c_Next, c_Json, c_Abort, c_SetParam, Error_of, act,
    get_ctx, raise, mbind, mret, M_bind, M_ret, jwt.Parse.

Section GateRuns.

Variable Next : Context -> Context.
Variable P : jwt.Parser.
Variables (config : JWTConfig) (key : string) (extractor : jwtExtractor).
Variables (sk : Skipper) (w : World).
Hypothesis Hsk : skipper config = Some sk.

Let w1 := entered Next sk w.

Ltac enter :=
  subst w1; unfold entered, answered, logged, passed, verified, Json, Abort in *;
  gate_unfold; rewrite Hsk; destruct (sk (ctx w)); simpl in *.

(** *** Extraction *)

(** The extractor panics: so does the gate. *)
Lemma gate_extractor_panics (p : panic) :
  extractor (ctx w1) = inl p ->
  gate Next P config key extractor w = Panicked p (logged w1 [EvExtract]).
Proof. intros Hex. enter; rewrite Hex; simpl; now rewrite ?app_assoc3. Qed.

(** Missing token, no hook: the default rejection. *)
Lemma gate_missing (auth : string) (e : error) :
  ErrorHandler config = None -> ErrorHandlerWithContext config = None ->
  extractor (ctx w1) = inr (auth, Some e) ->
  gate Next P config key extractor w =
  Done (Some e) (answered w1 [EvExtract] 401 (D 401 ("JWT ERR: " +:+ Error e))).
Proof.
  intros H1 H2 Hex. enter; rewrite Hex, H1, H2; simpl; now rewrite ?app_assoc3.
Qed.

(** Missing token, [ErrorHandler] set: the hook decides. *)
Lemma gate_missing_ErrorHandler (auth : string) (e : error) (h : JWTErrorHandler) :
  ErrorHandler config = Some h ->
  extractor (ctx w1) = inr (auth, Some e) ->
  gate Next P config key extractor w =
  Done (h (Some e)) (logged w1 [EvExtract; EvErrorHandler (Some e)]).
Proof.
  intros H1 Hex. enter; rewrite Hex, H1; simpl; now rewrite ?app_assoc3.
Qed.

(** Missing token, only [ErrorHandlerWithContext] set: that hook decides. *)
Lemma gate_missing_ErrorHandlerWithContext (auth : string) (e : error)
  (h : JWTErrorHandlerWithContext) :
  ErrorHandler config = None -> ErrorHandlerWithContext config = Some h ->
  extractor (ctx w1) = inr (auth, Some e) ->
  gate Next P config key extractor w =
  Done (h (Some e) (ctx w1)).2
    {| ctx := (h (Some e) (ctx w1)).1;
       log := log w1 ++ [EvExtract; EvErrorHandlerWithContext (Some e)] |}.
Proof.
  intros H1 H2 Hex. enter; rewrite Hex, H1, H2; simpl; now rewrite ?app_assoc3.
Qed.

(** *** A token was extracted *)

Variables (auth : string) (err : option error).
Hypothesis Hcl : Claims config <> jwt.NilClaims.
Hypothesis Hex : extractor (ctx w1) = inr (auth, None).

Ltac parse Hp :=
  enter; rewrite Hex; simpl;
  (destruct (Claims config); [congruence| |]; simpl in *; rewrite Hp; simpl).

(** The verifier returned no token: the gate panics on the nil pointer. *)
Lemma gate_nil_token :
  verified P config key auth = (None, err) ->
  gate Next P config key extractor w =
  Panicked NilDereference (logged w1 [EvExtract; EvParse auth]).
Proof. intros Hp. parse Hp; now rewrite ?app_assoc3. Qed.

Variable t : jwt.Token.
Hypothesis Hp : verified P config key auth = (Some t, err).

(** A claim map whose [auth_type] is not a string: the gate panics. *)
Lemma gate_unreadable (m : gmap string jwt.iface) :
  jwt.claims t = jwt.MapClaims m ->
  (forall s, m !! "auth_type" <> Some (jwt.IString s)) ->
  gate Next P config key extractor w =
  Panicked (InterfaceConversion (jwt.type_name (default jwt.INil (m !! "auth_type"))))
    (logged w1 [EvExtract; EvParse auth]).
Proof.
  intros Hm Hs. parse Hp; rewrite Hm;
    (destruct (m !! "auth_type") as [[| s | |]|] eqn:E; simpl;
     try (exfalso; now apply (Hs s)); now rewrite ?app_assoc3).
Qed.

(** A claim map marked "refresh": rejected, whatever else holds. *)
Lemma gate_refresh (m : gmap string jwt.iface) :
  jwt.claims t = jwt.MapClaims m ->
  m !! "auth_type" = Some (jwt.IString "refresh") ->
  gate Next P config key extractor w =
  Done (Some TokenRefreshErr)
    (answered w1 [EvExtract; EvParse auth] 401
       (D 10405 "Invalid or Expired JWT: This token is for refresh!")).
Proof.
  intros Hm Hr. parse Hp; rewrite Hm, Hr; simpl; now rewrite ?app_assoc3.
Qed.

Hypothesis Hplain : plain_token t.

Ltac plain :=
  unfold plain_token in Hplain;
  let Hm := fresh "Hm" in
  let Hne := fresh "Hne" in
  (destruct (jwt.claims t) as [| ? | ? ?];
   [ | destruct Hplain as (? & Hm & Hne); rewrite Hm; simpl;
       apply String.eqb_neq in Hne; rewrite Hne | ]; simpl).

(** A token the verifier accepted: stored, success hook, next handler. *)
Lemma gate_valid :
  err = None -> jwt.Valid t = true ->
  gate Next P config key extractor w = Done None (passed Next config auth t w1).
Proof.
  intros He Hv. parse Hp; rewrite He, Hv; plain;
    destruct (SuccessHandler config); simpl; now rewrite ?app_assoc3.
Qed.

(** A rejected token, [ErrorHandler] set: the hook decides. *)
Lemma gate_invalid_ErrorHandler (h : JWTErrorHandler) :
  refused err t = true -> ErrorHandler config = Some h ->
  gate Next P config key extractor w =
  Done (h err) (logged w1 [EvExtract; EvParse auth; EvErrorHandler err]).
Proof.
  unfold refused. intros Hr H1. apply negb_true_iff in Hr.
  parse Hp; plain; rewrite Hr, H1; simpl; now rewrite ?app_assoc3.
Qed.

(** A rejected token, only [ErrorHandlerWithContext] set: that hook decides. *)
Lemma gate_invalid_ErrorHandlerWithContext (h : JWTErrorHandlerWithContext) :
  refused err t = true ->
  ErrorHandler config = None -> ErrorHandlerWithContext config = Some h ->
  gate Next P config key extractor w =
  Done (h err (ctx w1)).2
    {| ctx := (h err (ctx w1)).1;
       log := log w1 ++ [EvExtract; EvParse auth; EvErrorHandlerWithContext err] |}.
Proof.
  unfold refused. intros Hr H1 H2. apply negb_true_iff in Hr.
  parse Hp; plain; rewrite Hr, H1, H2; simpl; now rewrite ?app_assoc3.
Qed.

(** A validation error, no hook: the default rejection, with the code and
    message of the classification. *)
Lemma gate_invalid (text : string) (Errors : Z) :
  err = Some (ValidationError text Errors) ->
  ErrorHandler config = None -> ErrorHandlerWithContext config = None ->
  gate Next P config key extractor w =
  Done err
    (answered w1 [EvExtract; EvParse auth] 401
       (D (by_priority Errors).1
          ("Invalid or Expired JWT: " +:+ Error (by_priority Errors).2 +:+
           " [ origin err: " +:+ text +:+ " ] "))).
Proof.
  intros He H1 H2. subst err.
  pose proof (classify_by_priority text Errors http.StatusUnauthorized None) as Hc.
  parse Hp; plain; rewrite H1, H2, Hc; simpl; now rewrite ?app_assoc3.
Qed.

(** A rejection that is not a validation error, no hook: no message was
    chosen, and rendering it panics. *)
Lemma gate_invalid_unclassified :
  refused err t = true ->
  (forall text Errors, err <> Some (ValidationError text Errors)) ->
  ErrorHandler config = None -> ErrorHandlerWithContext config = None ->
  gate Next P config key extractor w =
  Panicked NilDereference (logged w1 [EvExtract; EvParse auth]).
Proof.
  unfold refused. intros Hr Hne H1 H2. apply negb_true_iff in Hr.
  destruct err as [[msg|text Errors]|]; [| now destruct (Hne text Errors) |];
    parse Hp; plain; try rewrite Hr; rewrite H1, H2; simpl; now rewrite ?app_assoc3.
Qed.

End GateRuns.

(** ** What an installed middleware looks like *)

Lemma defaults_skipper (config : JWTConfig) :
  exists sk, skipper (defaults config) = Some sk.
Proof. unfold defaults; simpl. destruct (skipper config); eauto. Qed.

Lemma defaults_Claims (config : JWTConfig) : Claims (defaults config) <> jwt.NilClaims.
Proof. unfold defaults; simpl. destruct (Claims config); discriminate. Qed.

Lemma JWTWithConfig_gate Next P (config : JWTConfig) (key : string) (ex : jwtExtractor) :
  SigningKey config = Some key ->
  select_extractor (defaults config) = inr ex ->
  JWTWithConfig Next P config = inr (gate Next P (defaults config) key ex).
Proof. intros Hk Hx. unfold JWTWithConfig. now rewrite Hk, Hx. Qed.

(** A handler is returned only for a configuration with a key. *)
Lemma JWTWithConfig_handler_has_key Next P (config : JWTConfig) (h : HandlerFunc) :
  JWTWithConfig Next P config = inr h -> exists key, SigningKey config = Some key.
Proof.
  unfold JWTWithConfig. destruct (SigningKey config) as [key|]; [eauto | discriminate].
Qed.

Lemma installed_is_JWTWithConfig sk eh :
  JWTWithConfig example.test_handler example.verifier (example.config sk eh) =
  inr (example.installed sk eh).
Proof. reflexivity. Qed.

(** The default rejection and the hooks' bookkeeping leave the storage alone. *)
Lemma answered_Params (w : World) (es : list Event) (status : Z) (body : Body) :
  Params (ctx (answered w es status body)) = Params (ctx w).
Proof. reflexivity. Qed.

Lemma logged_Params (w : World) (es : list Event) :
  Params (ctx (logged w es)) = Params (ctx w).
Proof. reflexivity. Qed.

(** ** A validation error for a token the gate can read *)

Lemma readable_cases (t : jwt.Token) :
  readable t ->
  (marked_refresh t = true /\
   exists m, jwt.claims t = jwt.MapClaims m /\
             m !! "auth_type" = Some (jwt.IString "refresh"))
  \/ (marked_refresh t = false /\ plain_token t).
Proof.
  unfold readable, marked_refresh, plain_token.
  destruct (jwt.claims t) as [|m|ty fs]; [now right | | now right].
  intros (s & Hs). rewrite Hs.
  destruct (String.eqb_spec s "refresh") as [->|Hne].
  - left. eauto.
  - right. eauto.
Qed.

(** The whole outcome: the refresh answer for a refresh token, whatever the
    error; otherwise the first configured hook, with the verifier's error;
    otherwise the default answer under the classified code and message. *)
Lemma gate_validation_error
  Next P (config : JWTConfig) (key : string) (extractor : jwtExtractor)
  (sk : Skipper) (w : World) (auth : string) (t : jwt.Token)
  (text : string) (Errors : Z) :
  let w1 := entered Next sk w in
  let err := Some (ValidationError text Errors) in
  skipper config = Some sk ->
  Claims config <> jwt.NilClaims ->
  extractor (ctx w1) = inr (auth, None) ->
  verified P config key auth = (Some t, err) ->
  readable t ->
  gate Next P config key extractor w =
  if marked_refresh t then
    Done (Some TokenRefreshErr)
      (answered w1 [EvExtract; EvParse auth] 401
         (D 10405 "Invalid or Expired JWT: This token is for refresh!"))
  else
    match ErrorHandler config with
    | Some h => Done (h err) (logged w1 [EvExtract; EvParse auth; EvErrorHandler err])
    | None =>
        match ErrorHandlerWithContext config with
        | Some h =>
            Done (h err (ctx w1)).2
              {| ctx := (h err (ctx w1)).1;
                 log := log w1 ++ [EvExtract; EvParse auth; EvErrorHandlerWithContext err] |}
        | None =>
            Done err
              (answered w1 [EvExtract; EvParse auth] 401
                 (D (by_priority Errors).1
                    ("Invalid or Expired JWT: " +:+ Error (by_priority Errors).2 +:+
                     " [ origin err: " +:+ text +:+ " ] ")))
        end
    end.
Proof.
  intros w1 err Hsk Hcl Hex Hp Hread.
  destruct (readable_cases t Hread) as [(-> & m & Hm & Hr) | (-> & Hplain)].
  - exact (gate_refresh Next P config key extractor sk w Hsk auth err Hcl Hex t Hp m Hm Hr).
  - destruct (ErrorHandler config) as [h|] eqn:H1.
    + exact (gate_invalid_ErrorHandler Next P config key extractor sk w Hsk auth err
               Hcl Hex t Hp Hplain h eq_refl H1).
    + destruct (ErrorHandlerWithContext config) as [h|] eqn:H2.
      * exact (gate_invalid_ErrorHandlerWithContext Next P config key extractor sk w Hsk
                 auth err Hcl Hex t Hp Hplain h eq_refl H1 H2).
      * exact (gate_invalid Next P config key extractor sk w Hsk auth err Hcl Hex t Hp
                 Hplain text Errors eq_refl H1 H2).
Qed.

(** * The claims *)

(** ** Missing token *)

(** C1: when extraction fails and no error hook is configured, the gate
    writes a structured error body, halts the chain and returns the
    extraction error; the status it writes, and the code in the body, is
    401 (Unauthorized), where the claim and the package's own documentation
    of [JWT] say 400 (Bad Request). *)
Theorem C1_missing_token_is_answered_401
  Next P (config : JWTConfig) (key : string) (extractor : jwtExtractor)
  (sk : Skipper) (w : World) (auth : string) (e : error) :
  skipper config = Some sk ->
  ErrorHandler config = None -> ErrorHandlerWithContext config = None ->
  extractor (ctx (entered Next sk w)) = inr (auth, Some e) ->
  gate Next P config key extractor w =
  Done (Some e)
    (answered (entered Next sk w) [EvExtract] 401 (D 401 ("JWT ERR: " +:+ Error e))).
Proof.
  intros Hsk H1 H2 Hex.
  exact (gate_missing Next P config key extractor sk w Hsk auth e H1 H2 Hex).
Qed.

Lemma C1_missing_token_is_answered_401_witness :
  example.installed None None (example.request "") =
  Done (Some JWTMissingErr)
    {| ctx := {| Req := Req (ctx (example.request "")); Params := ∅;
                 Response := [{| Status := 401;
                                 Payload := D 401 "JWT ERR: Missing or Malformed JWT" |}];
                 Aborted := true |};
       log := [EvExtract; EvJson 401 (D 401 "JWT ERR: Missing or Malformed JWT"); EvAbort] |}.
Proof.
  exact (C1_missing_token_is_answered_401 example.test_handler example.verifier
           (defaults (example.config None None)) "secret"
           (jwtFromHeader "Authorization" "Bearer") DefaultSkipper
           (example.request "") "" JWTMissingErr
           eq_refl eq_refl eq_refl eq_refl).
Defined.

(** ** The skipper *)

(** C2: when the skipper answers true the gate calls the next handler and
    then, instead of returning, goes on exactly as a gate that never skips
    would on the context the next handler left: it extracts, verifies, and
    rejects or stores and calls the next handler a second time.  The claim
    says that nothing of this happens after the skip. *)
Theorem C2_skip_falls_through
  Next P (config : JWTConfig) (key : string) (extractor : jwtExtractor)
  (sk : Skipper) (w : World) :
  skipper config = Some sk -> sk (ctx w) = true ->
  gate Next P config key extractor w =
  gate Next P (with_skipper DefaultSkipper config) key extractor
    {| ctx := Next (ctx w); log := log w ++ [EvNext] |}.
Proof.
  intros Hsk Hskip. gate_unfold. rewrite Hsk. simpl. rewrite Hskip. reflexivity.
Qed.

Lemma C2_skip_falls_through_witness :
  example.installed (Some example.always_skip) None (example.request "") =
  Done (Some JWTMissingErr)
    {| ctx := {| Req := Req (ctx (example.request "")); Params := ∅;
                 Response := [{| Status := 200; Payload := Text "test" |};
                              {| Status := 401;
                                 Payload := D 401 "JWT ERR: Missing or Malformed JWT" |}];
                 Aborted := true |};
       log := [EvNext; EvExtract;
               EvJson 401 (D 401 "JWT ERR: Missing or Malformed JWT"); EvAbort] |}.
Proof.
  unfold example.installed.
  rewrite (C2_skip_falls_through example.test_handler example.verifier
             (defaults (example.config (Some example.always_skip) None)) "secret"
             (jwtFromHeader "Authorization" "Bearer") example.always_skip
             (example.request "") eq_refl eq_refl).
  reflexivity.
Defined.

(** ** Refresh tokens *)

(** C3: a token whose claims are a claim map with auth_type = "refresh" is
    rejected with status 401 and code 10405, whatever the verifier said about
    it (any error, any validity flag) and whatever hooks are configured: the
    chain is halted, nothing is stored, and after extraction neither the
    success hook nor the next handler is called. *)
Theorem C3_refresh_token_is_rejected
  Next P (config : JWTConfig) (key : string) (extractor : jwtExtractor)
  (sk : Skipper) (w : World) (auth : string) (err : option error)
  (t : jwt.Token) (m : gmap string jwt.iface) :
  skipper config = Some sk ->
  Claims config <> jwt.NilClaims ->
  extractor (ctx (entered Next sk w)) = inr (auth, None) ->
  verified P config key auth = (Some t, err) ->
  jwt.claims t = jwt.MapClaims m ->
  m !! "auth_type" = Some (jwt.IString "refresh") ->
  let body := D 10405 "Invalid or Expired JWT: This token is for refresh!" in
  let w1 := entered Next sk w in
  gate Next P config key extractor w =
  Done (Some TokenRefreshErr)
    {| ctx := {| Req := Req (ctx w1); Params := Params (ctx w1);
                 Response := Response (ctx w1) ++ [{| Status := 401; Payload := body |}];
                 Aborted := true |};
       log := log w1 ++ [EvExtract; EvParse auth; EvJson 401 body; EvAbort] |}.
Proof.
  intros Hsk Hcl Hex Hp Hm Hr body w1.
  exact (gate_refresh Next P config key extractor sk w Hsk auth err Hcl Hex t Hp m Hm Hr).
Qed.

Lemma C3_refresh_token_is_rejected_witness :
  example.installed None None (example.request "Bearer refresh") =
  Done (Some TokenRefreshErr)
    {| ctx := {| Req := Req (ctx (example.request "Bearer refresh")); Params := ∅;
                 Response := [{| Status := 401;
                                 Payload := D 10405 "Invalid or Expired JWT: This token is for refresh!" |}];
                 Aborted := true |};
       log := [EvExtract; EvParse "refresh";
               EvJson 401 (D 10405 "Invalid or Expired JWT: This token is for refresh!");
               EvAbort] |}.
Proof.
  refine (C3_refresh_token_is_rejected example.test_handler example.verifier
            (defaults (example.config None None)) "secret"
            (jwtFromHeader "Authorization" "Bearer") DefaultSkipper
            (example.request "Bearer refresh") "refresh" None
            (jwt.set_Valid example.refresh_token)
            {[ "auth_type" := jwt.IString "refresh" ]}
            eq_refl _ _ _ eq_refl _).
  - discriminate.
  - vm_compute. reflexivity.
  - vm_compute. reflexivity.
  - vm_compute. reflexivity.
Defined.

(** ** Header extraction *)

(** C4, as stated, fails: the byte after the scheme is skipped without being
    compared with a space, so a header value that does not start with
    "Bearer " is accepted. *)
Lemma C4_separator_is_not_compared :
  jwtFromHeader "Authorization" "Bearer"
    (example.header_request {[ "Authorization" := "Bearer-abc" ]}) = inr ("abc", None)
  /\ String.prefix "Bearer " "Bearer-abc" = false.
Proof. split; vm_compute; reflexivity. Qed.

(** C4, amended: header extraction succeeds exactly when the header value is
    the scheme, then one byte of any value, then a non-empty remainder, and it
    returns that remainder; every other value (absent, shorter, another
    scheme) yields the missing-token error. *)
Theorem C4_header_extraction (header authScheme : string) (c : Context) :
  let auth := Header_Get c header in
  (exists sep token,
      auth = authScheme +:+ String sep token /\ token <> "" /\
      jwtFromHeader header authScheme c = inr (token, None))
  \/ ((forall sep token, auth = authScheme +:+ String sep token -> token = "") /\
      jwtFromHeader header authScheme c = inr ("", Some JWTMissingErr)).
Proof.
  intros auth. unfold jwtFromHeader. fold auth.
  set (l := String.length authScheme).
  destruct ((l + 1 <? String.length auth)%nat) eqn:Hlen; simpl.
  - destruct (String.eqb (slice_to l auth) authScheme) eqn:Hpre.
    + left. apply Nat.ltb_lt in Hlen. apply String.eqb_eq in Hpre.
      destruct (split_at l auth) as [E L]; [lia|].
      rewrite Hpre in E.
      destruct (slice_from l auth) as [|sep token] eqn:Hrest.
      * exfalso. rewrite E, length_app in Hlen. simpl in Hlen. lia.
      * exists sep, token. split; [exact E|]. split.
        -- intros ->. rewrite E, length_app in Hlen. simpl in Hlen. lia.
        -- rewrite E at 1. unfold l. now rewrite slice_from_after_sep.
    + right. split; [|reflexivity]. intros sep token E.
      rewrite E in Hpre. unfold l in Hpre. rewrite slice_to_app in Hpre.
      now rewrite String.eqb_refl in Hpre.
  - right. split; [|reflexivity]. intros sep token E.
    apply Nat.ltb_ge in Hlen. rewrite E, length_app in Hlen. simpl in Hlen.
    apply length_zero. unfold l in Hlen. lia.
Qed.

(** The scheme followed by a space is accepted, and another scheme is not. *)
Example bearer_space_token :
  jwtFromHeader "Authorization" "Bearer"
    (example.header_request {[ "Authorization" := "Bearer abc" ]}) = inr ("abc", None)
  /\ jwtFromHeader "Authorization" "Bearer"
       (example.header_request {[ "Authorization" := "Token abc" ]}) =
     inr ("", Some JWTMissingErr).
Proof. split; vm_compute; reflexivity. Qed.

(** ** Signing method *)

(** C5, as stated, fails: a token of another algorithm whose claims lack
    [auth_type] is refused by the verifier, and the gate then panics without
    writing any response; and when the gate does answer a token of another
    algorithm, the status is 401, not 400. *)
Lemma C5_mismatch_is_not_always_answered :
  example.untyped_rs256_verifier "rs256" (jwt.MapClaims ∅) (keyFunc "HS256" "secret") =
    (Some example.rs256_untyped_token,
     Some (ValidationError "unexpected jwt signing method=RS256"
             jwt.ValidationErrorUnverifiable)) /\
  gate example.test_handler example.untyped_rs256_verifier
    (defaults (example.config None None)) "secret"
    (jwtFromHeader "Authorization" "Bearer") (example.request "Bearer rs256") =
    Panicked (InterfaceConversion "nil")
      {| ctx := ctx (example.request "Bearer rs256");
         log := [EvExtract; EvParse "rs256"] |} /\
  Response (ctx (world_of (example.installed None None (example.request "Bearer rs256")))) =
    [{| Status := 401;
        Payload := D 10403 ("Invalid or Expired JWT: Couldn't handle this token:" +:+
                            " [ origin err: unexpected jwt signing method=RS256 ] ") |}].
Proof. repeat split; vm_compute; reflexivity. Qed.

(** C5, amended: a token whose algorithm name is not exactly the configured
    signing method is refused by the key function, which never hands out the
    key, whatever the key is; the verifier then reports an unverifiable token
    without validating claims or checking the signature; and for a token
    whose auth_type the gate can read (claims that are not a claim map, or a
    string auth_type) the gate rejects the request: with the 401 answer of
    code 10405 when auth_type is "refresh", otherwise through the configured
    error hook when there is one, and with a 401 answer of code 10403 when
    there is none. *)
Theorem C5_signing_method_mismatch_is_rejected
  Next decode validate verify (config : JWTConfig) (key : string)
  (extractor : jwtExtractor) (sk : Skipper) (w : World) (auth : string)
  (t : jwt.Token) :
  let P := jwt.ParseWithClaims decode validate verify in
  let w1 := entered Next sk w in
  let kerr := errorString ("unexpected jwt signing method=" +:+
                           jwt.fmt_v (default jwt.INil (jwt.Header t !! "alg"))) in
  let verr := Some (ValidationError (Error kerr) jwt.ValidationErrorUnverifiable) in
  jwt.Alg t <> SigningMethod config ->
  keyFunc (SigningMethod config) key t = inr kerr /\
  (decode auth (fresh (Claims config)) = (Some t, None) ->
   verified P config key auth = (Some t, verr) /\
   (skipper config = Some sk ->
    Claims config <> jwt.NilClaims ->
    extractor (ctx w1) = inr (auth, None) ->
    readable t ->
    gate Next P config key extractor w =
    if marked_refresh t then
      Done (Some TokenRefreshErr)
        (answered w1 [EvExtract; EvParse auth] 401
           (D 10405 "Invalid or Expired JWT: This token is for refresh!"))
    else
      match ErrorHandler config with
      | Some h => Done (h verr) (logged w1 [EvExtract; EvParse auth; EvErrorHandler verr])
      | None =>
          match ErrorHandlerWithContext config with
          | Some h =>
              Done (h verr (ctx w1)).2
                {| ctx := (h verr (ctx w1)).1;
                   log := log w1 ++
                          [EvExtract; EvParse auth; EvErrorHandlerWithContext verr] |}
          | None =>
              Done verr
                (answered w1 [EvExtract; EvParse auth] 401
                   (D 10403 ("Invalid or Expired JWT: Couldn't handle this token:" +:+
                             " [ origin err: " +:+ Error kerr +:+ " ] ")))
          end
      end)).
Proof.
  intros P w1 kerr verr Halg.
  pose proof (keyFunc_mismatch (SigningMethod config) key t Halg) as Hk.
  split; [exact Hk|]. intros Hd.
  assert (Hp : verified P config key auth = (Some t, verr)).
  { unfold verified, P, jwt.ParseWithClaims. rewrite Hd, Hk. reflexivity. }
  split; [exact Hp|]. intros Hsk Hcl Hex Hread.
  exact (gate_validation_error Next P config key extractor sk w auth t (Error kerr)
           jwt.ValidationErrorUnverifiable Hsk Hcl Hex Hp Hread).
Qed.

Lemma C5_signing_method_mismatch_is_rejected_witness :
  example.installed None None (example.request "Bearer rs256") =
  Done (Some (ValidationError "unexpected jwt signing method=RS256"
                jwt.ValidationErrorUnverifiable))
    (answered (example.request "Bearer rs256") [EvExtract; EvParse "rs256"] 401
       (D 10403 ("Invalid or Expired JWT: Couldn't handle this token:" +:+
                 " [ origin err: unexpected jwt signing method=RS256 ] "))).
Proof.
  assert (Halg : jwt.Alg example.rs256_token <>
                 SigningMethod (defaults (example.config None None)))
    by (vm_compute; discriminate).
  destruct (C5_signing_method_mismatch_is_rejected example.test_handler
              example.decode example.in_date example.check_signature
              (defaults (example.config None None)) "secret"
              (jwtFromHeader "Authorization" "Bearer") DefaultSkipper
              (example.request "Bearer rs256") "rs256" example.rs256_token Halg)
    as [_ Hrest].
  destruct Hrest as [_ Hgate]; [vm_compute; reflexivity|].
  unfold example.installed, example.verifier. rewrite Hgate.
  - vm_compute. reflexivity.
  - reflexivity.
  - discriminate.
  - vm_compute. reflexivity.
  - vm_compute. eexists. reflexivity.
Defined.

(** ** Error hooks *)

(** C6: a refresh token is rejected with the default body although an
    [ErrorHandler] is configured: the hook is not called and its answer is
    not what the gate returns.  The claim says that every rejection,
    this one included, is left to the hook, as the gate does on its two
    other rejection paths ([gate_missing_ErrorHandler],
    [gate_invalid_ErrorHandler]). *)
Theorem C6_refresh_rejection_bypasses_the_hook
  Next P (config : JWTConfig) (key : string) (extractor : jwtExtractor)
  (sk : Skipper) (w : World) (auth : string) (err : option error)
  (t : jwt.Token) (m : gmap string jwt.iface) (h : JWTErrorHandler) :
  skipper config = Some sk ->
  ErrorHandler config = Some h ->
  Claims config <> jwt.NilClaims ->
  extractor (ctx (entered Next sk w)) = inr (auth, None) ->
  verified P config key auth = (Some t, err) ->
  jwt.claims t = jwt.MapClaims m ->
  m !! "auth_type" = Some (jwt.IString "refresh") ->
  gate Next P config key extractor w =
  Done (Some TokenRefreshErr)
    (answered (entered Next sk w) [EvExtract; EvParse auth] 401
       (D 10405 "Invalid or Expired JWT: This token is for refresh!")).
Proof.
  intros Hsk _ Hcl Hex Hp Hm Hr.
  exact (gate_refresh Next P config key extractor sk w Hsk auth err Hcl Hex t Hp m Hm Hr).
Qed.

Lemma C6_refresh_rejection_bypasses_the_hook_witness :
  example.installed None (Some example.custom_hook) (example.request "Bearer refresh") =
  Done (Some TokenRefreshErr)
    (answered (example.request "Bearer refresh") [EvExtract; EvParse "refresh"] 401
       (D 10405 "Invalid or Expired JWT: This token is for refresh!")).
Proof.
  refine (C6_refresh_rejection_bypasses_the_hook example.test_handler example.verifier
            (defaults (example.config None (Some example.custom_hook))) "secret"
            (jwtFromHeader "Authorization" "Bearer") DefaultSkipper
            (example.request "Bearer refresh") "refresh" None
            (jwt.set_Valid example.refresh_token)
            {[ "auth_type" := jwt.IString "refresh" ]} example.custom_hook
            eq_refl eq_refl _ _ _ eq_refl _).
  - discriminate.
  - vm_compute. reflexivity.
  - vm_compute. reflexivity.
  - vm_compute. reflexivity.
Defined.

(** On the same installation a missing token is left to the hook. *)
Example missing_token_goes_to_the_hook :
  example.installed None (Some example.custom_hook) (example.request "") =
  Done (Some (errorString "custom"))
    (logged (example.request "") [EvExtract; EvErrorHandler (Some JWTMissingErr)]).
Proof. vm_compute. reflexivity. Qed.

(** A string the verifier cannot split comes back with a nil token, on which
    the gate panics before any hook. *)
Example unknown_token_panics_before_the_hook :
  example.installed None (Some example.custom_hook) (example.request "Bearer junk") =
  Panicked NilDereference (logged (example.request "Bearer junk") [EvExtract; EvParse "junk"]).
Proof. vm_compute. reflexivity. Qed.

(** ** Setup *)

(** C7: for a configuration without signing key [JWTWithConfig] panics with
    its setup message and returns no handler, so no request is ever served. *)
Theorem C7_missing_signing_key_panics Next P (config : JWTConfig) :
  SigningKey config = None ->
  JWTWithConfig Next P config =
    inl (PanicMsg "doris: jwt middleware requires signing key") /\
  forall c, run Next P config c = None.
Proof.
  intros Hk. unfold run, JWTWithConfig. rewrite Hk. split; [reflexivity | intros c; reflexivity].
Qed.

Lemma C7_missing_signing_key_panics_witness :
  JWTWithConfig example.test_handler example.verifier DefaultJWTConfig =
    inl (PanicMsg "doris: jwt middleware requires signing key") /\
  forall c, run example.test_handler example.verifier DefaultJWTConfig c = None.
Proof.
  exact (C7_missing_signing_key_panics example.test_handler example.verifier
           DefaultJWTConfig eq_refl).
Defined.

(** ** Classification of validation errors *)

(** C8, as stated, fails: a refresh token returned with an error both
    malformed and expired is reported under the refresh code 10405, not
    under the code 10402 that the first flag set picks; and a validation
    error returned with no token at all is not reported: the gate panics. *)
Lemma C8_refresh_and_nil_tokens_are_not_classified :
  (by_priority 17).1 = 10402%Z /\
  gate example.test_handler example.malformed_and_expired_refresh
    (defaults (example.config None None)) "secret"
    (jwtFromHeader "Authorization" "Bearer") (example.request "Bearer refresh") =
    Done (Some TokenRefreshErr)
      (answered (example.request "Bearer refresh") [EvExtract; EvParse "refresh"] 401
         (D 10405 "Invalid or Expired JWT: This token is for refresh!")) /\
  example.verifier "junk" (jwt.MapClaims ∅) (keyFunc "HS256" "secret") =
    (None, Some (ValidationError "token contains an invalid number of segments"
                   jwt.ValidationErrorMalformed)) /\
  example.installed None None (example.request "Bearer junk") =
    Panicked NilDereference
      (logged (example.request "Bearer junk") [EvExtract; EvParse "junk"]).
Proof. repeat split; vm_compute; reflexivity. Qed.

(** C8, amended: the classification block picks, for every validation error,
    the first flag set among Malformed, Expired and NotYetValid, in this
    order, and Generic when none is set, so that an error both malformed and
    expired is Malformed; and for a validation error returned with a token
    whose auth_type the gate can read and that is not a refresh token, the
    code and the message picked are the ones of the response when no error
    hook is configured, while a configured hook is handed the error
    unclassified; a refresh token is answered under code 10405 whatever the
    flags. *)
Theorem C8_first_flag_set_decides
  Next P (config : JWTConfig) (key : string) (extractor : jwtExtractor)
  (sk : Skipper) (w : World) (auth : string) (t : jwt.Token)
  (text : string) (Errors : Z) (code : Z) (errMsg : option error) :
  let w1 := entered Next sk w in
  let err := Some (ValidationError text Errors) in
  classify err code errMsg = ((by_priority Errors).1, Some (by_priority Errors).2) /\
  (Z.testbit Errors 0 = true -> (by_priority Errors).1 = TokenMalformed) /\
  (skipper config = Some sk ->
   Claims config <> jwt.NilClaims ->
   extractor (ctx w1) = inr (auth, None) ->
   verified P config key auth = (Some t, err) ->
   readable t ->
   gate Next P config key extractor w =
   if marked_refresh t then
     Done (Some TokenRefreshErr)
       (answered w1 [EvExtract; EvParse auth] 401
          (D 10405 "Invalid or Expired JWT: This token is for refresh!"))
   else
     match ErrorHandler config with
     | Some h => Done (h err) (logged w1 [EvExtract; EvParse auth; EvErrorHandler err])
     | None =>
         match ErrorHandlerWithContext config with
         | Some h =>
             Done (h err (ctx w1)).2
               {| ctx := (h err (ctx w1)).1;
                  log := log w1 ++
                         [EvExtract; EvParse auth; EvErrorHandlerWithContext err] |}
         | None =>
             Done err
               (answered w1 [EvExtract; EvParse auth] 401
                  (D (by_priority Errors).1
                     ("Invalid or Expired JWT: " +:+ Error (by_priority Errors).2 +:+
                      " [ origin err: " +:+ text +:+ " ] ")))
         end
     end).
Proof.
  intros w1 err. split; [apply classify_by_priority|]. split.
  - intros Hb. unfold by_priority. now rewrite Hb.
  - intros Hsk Hcl Hex Hp Hread.
    exact (gate_validation_error Next P config key extractor sk w auth t text Errors
             Hsk Hcl Hex Hp Hread).
Qed.

Lemma C8_first_flag_set_decides_witness :
  gate example.test_handler example.malformed_and_expired
    (defaults (example.config None None)) "secret"
    (jwtFromHeader "Authorization" "Bearer") (example.request "Bearer access") =
  Done (Some (ValidationError "token is malformed and expired" 17))
    (answered (example.request "Bearer access") [EvExtract; EvParse "access"] 401
       (D 10402 ("Invalid or Expired JWT: That's not even a token" +:+
                 " [ origin err: token is malformed and expired ] "))).
Proof.
  rewrite (proj2 (proj2 (C8_first_flag_set_decides example.test_handler
             example.malformed_and_expired
             (defaults (example.config None None)) "secret"
             (jwtFromHeader "Authorization" "Bearer") DefaultSkipper
             (example.request "Bearer access") "access" example.access_token
             "token is malformed and expired" 17 401 None))).
  - vm_compute. reflexivity.
  - reflexivity.
  - discriminate.
  - vm_compute. reflexivity.
  - vm_compute. reflexivity.
  - vm_compute. eexists. reflexivity.
Defined.

(** ** The unguarded [auth_type] read *)

(** C9: when the verifier returns a token whose claims are a claim map in
    which [auth_type] is absent or is not a string, the gate panics on the
    type assertion, whatever else the verifier said: no response is written,
    nothing is stored, no hook and no handler is called. *)
Theorem C9_unreadable_auth_type_panics
  Next P (config : JWTConfig) (key : string) (extractor : jwtExtractor)
  (sk : Skipper) (w : World) (auth : string) (err : option error)
  (t : jwt.Token) (m : gmap string jwt.iface) :
  skipper config = Some sk ->
  Claims config <> jwt.NilClaims ->
  extractor (ctx (entered Next sk w)) = inr (auth, None) ->
  verified P config key auth = (Some t, err) ->
  jwt.claims t = jwt.MapClaims m ->
  (forall s, m !! "auth_type" <> Some (jwt.IString s)) ->
  gate Next P config key extractor w =
  Panicked (InterfaceConversion (jwt.type_name (default jwt.INil (m !! "auth_type"))))
    {| ctx := ctx (entered Next sk w);
       log := log (entered Next sk w) ++ [EvExtract; EvParse auth] |}.
Proof.
  intros Hsk Hcl Hex Hp Hm Hs.
  exact (gate_unreadable Next P config key extractor sk w Hsk auth err Hcl Hex t Hp m Hm Hs).
Qed.

Lemma C9_unreadable_auth_type_panics_witness :
  example.installed None None (example.request "Bearer untyped") =
  Panicked (InterfaceConversion "nil")
    {| ctx := ctx (example.request "Bearer untyped");
       log := [EvExtract; EvParse "untyped"] |}.
Proof.
  refine (C9_unreadable_auth_type_panics example.test_handler example.verifier
            (defaults (example.config None None)) "secret"
            (jwtFromHeader "Authorization" "Bearer") DefaultSkipper
            (example.request "Bearer untyped") "untyped" None
            (jwt.set_Valid example.untyped_token)
            {[ "name" := jwt.IString "John Doe" ]}
            eq_refl _ _ _ eq_refl _).
  - discriminate.
  - vm_compute. reflexivity.
  - vm_compute. reflexivity.
  - intros s H. vm_compute in H. discriminate H.
Defined.

(** ** Request-scoped storage *)

(** C10: a request for which the skipper answers true and which carries a
    token the verifier accepts has that token stored under the context key:
    after the next handler has run for the skip, the gate extracts, verifies,
    stores the token, calls the success hook and the next handler again.  The
    claim says that a skipped request writes nothing under the context key. *)
Theorem C10_skipped_request_still_stores
  Next P (config : JWTConfig) (key : string) (extractor : jwtExtractor)
  (sk : Skipper) (w : World) (auth : string) (t : jwt.Token) :
  skipper config = Some sk -> sk (ctx w) = true ->
  Claims config <> jwt.NilClaims ->
  extractor (ctx (entered Next sk w)) = inr (auth, None) ->
  verified P config key auth = (Some t, None) ->
  jwt.Valid t = true ->
  plain_token t ->
  let after_skip := Next (ctx w) in
  let stored := SetParam (ContextKey config) (PToken t) after_skip in
  gate Next P config key extractor w =
  Done None
    {| ctx := Next (match SuccessHandler config with
                    | Some h => h stored
                    | None => stored
                    end);
       log := (log w ++ [EvNext]) ++
              [EvExtract; EvParse auth; EvSetParam (ContextKey config) (PToken t)] ++
              match SuccessHandler config with
              | Some _ => [EvSuccessHandler]
              | None => []
              end ++ [EvNext] |}.
Proof.
  intros Hsk Hskip Hcl Hex Hp Hv Hplain after_skip stored.
  rewrite (gate_valid Next P config key extractor sk w Hsk auth None Hcl Hex t Hp
             Hplain eq_refl Hv).
  unfold passed, entered. rewrite Hskip. reflexivity.
Qed.

Lemma C10_skipped_request_still_stores_witness :
  example.installed (Some example.always_skip) None (example.request "Bearer access") =
  Done None
    {| ctx := {| Req := Req (ctx (example.request "Bearer access"));
                 Params := {[ "user" := PToken (jwt.set_Valid example.access_token) ]};
                 Response := [{| Status := 200; Payload := Text "test" |};
                              {| Status := 200; Payload := Text "test" |}];
                 Aborted := false |};
       log := [EvNext; EvExtract; EvParse "access";
               EvSetParam "user" (PToken (jwt.set_Valid example.access_token));
               EvNext] |}.
Proof.
  refine (C10_skipped_request_still_stores example.test_handler example.verifier
            (defaults (example.config (Some example.always_skip) None)) "secret"
            (jwtFromHeader "Authorization" "Bearer") example.always_skip
            (example.request "Bearer access") "access"
            (jwt.set_Valid example.access_token)
            eq_refl eq_refl _ _ _ eq_refl _).
  - discriminate.
  - vm_compute. reflexivity.
  - vm_compute. reflexivity.
  - exists "access". split; [vm_compute; reflexivity | discriminate].
Defined.

(** Without the skip the same request is stored once and passed on once. *)
Example valid_token_is_stored_then_passed_on :
  example.installed None None (example.request "Bearer access") =
  Done None
    {| ctx := {| Req := Req (ctx (example.request "Bearer access"));
                 Params := {[ "user" := PToken (jwt.set_Valid example.access_token) ]};
                 Response := [{| Status := 200; Payload := Text "test" |}];
                 Aborted := false |};
       log := [EvExtract; EvParse "access";
               EvSetParam "user" (PToken (jwt.set_Valid example.access_token));
               EvNext] |}.
Proof. vm_compute. reflexivity. Qed.

(** * Further properties *)

(** ** The other extractors *)

(** X1: query extraction succeeds exactly when the named query parameter is
    present and not empty, and returns it unchanged; an absent or empty
    parameter is the missing-token error. *)
Theorem X1_query_extraction (param : string) (c : Context) :
  (exists token,
      Query (Req c) !! param = Some token /\ token <> "" /\
      jwtFromQuery param c = inr (token, None))
  \/ ((Query (Req c) !! param = None \/ Query (Req c) !! param = Some "") /\
      jwtFromQuery param c = inr ("", Some JWTMissingErr)).
Proof.
  unfold jwtFromQuery, QueryParam.
  destruct (Query (Req c) !! param) as [token|] eqn:E; simpl.
  - destruct (String.eqb_spec token "") as [->|Hne].
    + right. split; [now right | reflexivity].
    + left. exists token. repeat split; [exact Hne].
  - right. split; [now left | reflexivity].
Qed.

(** X2: cookie extraction fails exactly when the named cookie is absent; a
    cookie that is present is returned as the token even when its value is
    empty (where the query and path-parameter extractors report a missing
    token). *)
Theorem X2_cookie_extraction (name : string) (c : Context) :
  (forall v, Cookies (Req c) !! name = Some v -> jwtFromCookie name c = inr (v, None)) /\
  (Cookies (Req c) !! name = None ->
   jwtFromCookie name c = inr ("", Some JWTMissingErr)) /\
  (Cookies (Req c) !! name = Some "" ->
   jwtFromCookie name c = inr ("", None) /\
   (Query (Req c) !! name = Some "" ->
    jwtFromQuery name c = inr ("", Some JWTMissingErr))).
Proof.
  unfold jwtFromCookie, Cookie, jwtFromQuery, QueryParam.
  split; [|split].
  - intros v ->. reflexivity.
  - intros ->. reflexivity.
  - intros ->. split; [reflexivity|]. intros ->. reflexivity.
Qed.

(** X3: path-parameter extraction returns a stored non-empty string, reports
    a missing token for the empty string and for an absent parameter, and
    panics on the type assertion when the parameter holds anything but a
    string, such as the token a previous admission stored under that name. *)
Theorem X3_param_extraction (param : string) (c : Context) :
  (forall s, Params c !! param = Some (PString s) -> s <> "" ->
             jwtFromParam param c = inr (s, None)) /\
  (Params c !! param = None \/ Params c !! param = Some (PString "") ->
   jwtFromParam param c = inr ("", Some JWTMissingErr)) /\
  (forall t key,
      jwtFromParam param (SetParam key (PToken t) c) =
      if String.eqb key param then inl (InterfaceConversion "*jwt.Token")
      else jwtFromParam param c).
Proof.
  unfold jwtFromParam, GetParam. split; [|split].
  - intros s -> Hne. simpl. apply String.eqb_neq in Hne. now rewrite Hne.
  - intros [-> | ->]; reflexivity.
  - intros t key. simpl. destruct (String.eqb_spec key param) as [->|Hne].
    + now rewrite lookup_insert_eq.
    + now rewrite lookup_insert_ne.
Qed.

(** ** The token-lookup specifier *)

Lemma Split_nonempty (sep : ascii) (s : string) : Split sep s <> [].
Proof.
  destruct s as [|a s]; simpl; [discriminate|].
  destruct (Ascii.eqb a sep); [discriminate|].
  destruct (Split sep s); discriminate.
Qed.

(** A string without the separator is its own single part. *)
Lemma Split_no_sep (sep : ascii) (s : string) :
  has_byte sep s = false -> Split sep s = [s].
Proof.
  induction s as [|a s IH]; simpl; [reflexivity|].
  intros H. apply orb_false_iff in H as [Ha Hs].
  rewrite Ha, (IH Hs). reflexivity.
Qed.

(** The first part ends at the first separator. *)
Lemma Split_app_sep (sep : ascii) (a b : string) :
  has_byte sep a = false -> Split sep (a +:+ String sep b) = a :: Split sep b.
Proof.
  induction a as [|x a IH]; intros H.
  - change ("" +:+ String sep b) with (String sep b). simpl.
    now rewrite Ascii.eqb_refl.
  - simpl in H. apply orb_false_iff in H as [Hx Ha].
    rewrite app_cons. simpl. rewrite Hx, (IH Ha). reflexivity.
Qed.

(** X4: the token lookup is read as source, colon, name: the source is the
    text before the first colon and the name the text up to the second one,
    whatever follows a second colon being ignored; the sources query, param
    and cookie select their extractor and every other source, the empty one
    and a differently cased one included, selects the header extractor. *)
Theorem X4_lookup_selects_the_extractor
  (config : JWTConfig) (source name : string) (more : option string) :
  has_byte ":" source = false ->
  has_byte ":" name = false ->
  TokenLookup config =
    source +:+ String ":" (name +:+ match more with
                                    | Some rest => String ":" rest
                                    | None => ""
                                    end) ->
  select_extractor config = inr (extractor_for source name (AuthScheme config)).
Proof.
  intros Hs Hn Hl. unfold select_extractor. rewrite Hl, (Split_app_sep _ _ _ Hs).
  destruct more as [rest|].
  - rewrite (Split_app_sep _ _ _ Hn). reflexivity.
  - replace (name +:+ "") with name.
    + rewrite (Split_no_sep _ _ Hn). reflexivity.
    + clear. induction name as [|a n IH]; [reflexivity|]. now rewrite app_cons, <- IH.
Qed.

Lemma X4_lookup_selects_the_extractor_witness :
  select_extractor (defaults (example.lookup_config "Query:jwt:ignored")) =
  inr (jwtFromHeader "jwt" "Bearer").
Proof.
  exact (X4_lookup_selects_the_extractor
           (defaults (example.lookup_config "Query:jwt:ignored")) "Query" "jwt"
           (Some "ignored") eq_refl eq_refl eq_refl).
Defined.

(** X5: a token lookup without colon makes [JWTWithConfig] panic at setup,
    on the index of the missing name, although a signing key is given. *)
Theorem X5_lookup_without_colon_panics Next P (config : JWTConfig) (key : string) :
  SigningKey config = Some key ->
  TokenLookup config <> "" ->
  has_byte ":" (TokenLookup config) = false ->
  JWTWithConfig Next P config = inl IndexOutOfRange /\
  forall c, run Next P config c = None.
Proof.
  intros Hk Hne Hc.
  assert (H : JWTWithConfig Next P config = inl IndexOutOfRange).
  { unfold JWTWithConfig, select_extractor. rewrite Hk. simpl.
    apply String.eqb_neq in Hne. rewrite Hne, (Split_no_sep _ _ Hc). reflexivity. }
  split; [exact H|]. intros c. unfold run. now rewrite H.
Qed.

Lemma X5_lookup_without_colon_panics_witness :
  JWTWithConfig example.test_handler example.verifier (example.lookup_config "jwt") =
    inl IndexOutOfRange /\
  forall c, run example.test_handler example.verifier (example.lookup_config "jwt") c = None.
Proof.
  refine (X5_lookup_without_colon_panics example.test_handler example.verifier
            (example.lookup_config "jwt") "secret" eq_refl _ eq_refl).
  discriminate.
Defined.

(** ** Configuration *)

(** X6: a handler returned by [JWTWithConfig] is the gate of a fully resolved
    configuration: the key is the configured one, and the skipper, the claims
    shape, the signing method, the context key, the lookup and the scheme are
    all set, whichever of them the caller left out. *)
Theorem X6_installed_gate_is_resolved Next P (config : JWTConfig) (h : HandlerFunc) :
  JWTWithConfig Next P config = inr h ->
  exists key extractor,
    SigningKey config = Some key /\
    select_extractor (defaults config) = inr extractor /\
    h = gate Next P (defaults config) key extractor /\
    is_Some (skipper (defaults config)) /\
    Claims (defaults config) <> jwt.NilClaims /\
    SigningMethod (defaults config) <> "" /\
    ContextKey (defaults config) <> "" /\
    TokenLookup (defaults config) <> "" /\
    AuthScheme (defaults config) <> "".
Proof.
  unfold JWTWithConfig. destruct (SigningKey config) as [key|]; [|discriminate].
  destruct (select_extractor (defaults config)) as [p|extractor] eqn:Hx; [discriminate|].
  intros [= <-]. exists key, extractor.
  repeat split; try reflexivity.
  - destruct (defaults_skipper config) as [sk ->]. eauto.
  - apply defaults_Claims.
  - unfold defaults; simpl. destruct (String.eqb_spec (SigningMethod config) ""); [discriminate | assumption].
  - unfold defaults; simpl. destruct (String.eqb_spec (ContextKey config) ""); [discriminate | assumption].
  - unfold defaults; simpl. destruct (String.eqb_spec (TokenLookup config) ""); [discriminate | assumption].
  - unfold defaults; simpl. destruct (String.eqb_spec (AuthScheme config) ""); [discriminate | assumption].
Qed.

Lemma X6_installed_gate_is_resolved_witness :
  exists key extractor,
    SigningKey (example.config None None) = Some key /\
    select_extractor (defaults (example.config None None)) = inr extractor /\
    example.installed None None =
      gate example.test_handler example.verifier (defaults (example.config None None))
        key extractor /\
    is_Some (skipper (defaults (example.config None None))) /\
    Claims (defaults (example.config None None)) <> jwt.NilClaims /\
    SigningMethod (defaults (example.config None None)) <> "" /\
    ContextKey (defaults (example.config None None)) <> "" /\
    TokenLookup (defaults (example.config None None)) <> "" /\
    AuthScheme (defaults (example.config None None)) <> "".
Proof.
  exact (X6_installed_gate_is_resolved example.test_handler example.verifier
           (example.config None None) (example.installed None None) eq_refl).
Defined.

(** X7: resolving the defaults twice changes nothing more: a resolved
    configuration is resolved to itself. *)
Theorem X7_defaults_idempotent (config : JWTConfig) :
  defaults (defaults config) = defaults config.
Proof.
  destruct config as [sk sh eh ehc k m ck cl tl sch].
  unfold defaults; simpl. f_equal.
  - destruct sk; reflexivity.
  - destruct (String.eqb_spec m "") as [->|Hne]; [reflexivity|].
    apply String.eqb_neq in Hne. now rewrite Hne.
  - destruct (String.eqb_spec ck "") as [->|Hne]; [reflexivity|].
    apply String.eqb_neq in Hne. now rewrite Hne.
  - destruct cl; reflexivity.
  - destruct (String.eqb_spec tl "") as [->|Hne]; [reflexivity|].
    apply String.eqb_neq in Hne. now rewrite Hne.
  - destruct (String.eqb_spec sch "") as [->|Hne]; [reflexivity|].
    apply String.eqb_neq in Hne. now rewrite Hne.
Qed.

(** X8: [JWT(key)] installs, for every key, the gate that reads the
    Authorization header under the scheme Bearer, expects HS256 and stores
    under "user"; a request without that header is rejected by it with the
    missing-token body; and without key it panics. *)
Theorem X8_JWT_default_installation Next P (key : string) (c : Context) :
  exists config,
    JWT Next P (Some key) =
      inr (gate Next P config key (jwtFromHeader "Authorization" "Bearer")) /\
    SigningMethod config = "HS256" /\ ContextKey config = "user" /\
    (Headers (Req c) !! "Authorization" = None ->
     serve (gate Next P config key (jwtFromHeader "Authorization" "Bearer")) c =
     Done (Some JWTMissingErr)
       (answered {| ctx := c; log := [] |} [EvExtract] 401
          (D 401 "JWT ERR: Missing or Malformed JWT"))) /\
    JWT Next P None = inl (PanicMsg "doris: jwt middleware requires signing key").
Proof.
  set (config := defaults {|
         skipper := skipper DefaultJWTConfig; SuccessHandler := None;
         ErrorHandler := None; ErrorHandlerWithContext := None;
         SigningKey := Some key; SigningMethod := SigningMethod DefaultJWTConfig;
         ContextKey := ContextKey DefaultJWTConfig; Claims := Claims DefaultJWTConfig;
         TokenLookup := TokenLookup DefaultJWTConfig;
         AuthScheme := AuthScheme DefaultJWTConfig |}).
  exists config. split; [reflexivity|]. split; [reflexivity|]. split; [reflexivity|].
  split; [|reflexivity]. intros Hh. unfold serve.
  apply (gate_missing Next P config key (jwtFromHeader "Authorization" "Bearer")
           DefaultSkipper {| ctx := c; log := [] |} eq_refl "" JWTMissingErr eq_refl eq_refl).
  unfold entered, jwtFromHeader, Header_Get; simpl. now rewrite Hh.
Qed.

(** ** A lookup in the query string, end to end *)

(** X22: a gate configured with the lookup query:<name>, and with neither
    skipper nor error hook, rejects every request whose query string lacks
    that parameter with the missing-token body, whatever the request carries
    in its headers, cookies and stored parameters: the other sources are not
    consulted. *)
Theorem X22_query_lookup_ignores_the_other_sources
  Next P (config : JWTConfig) (key name : string) (c : Context) :
  SigningKey config = Some key ->
  skipper config = None ->
  ErrorHandler config = None -> ErrorHandlerWithContext config = None ->
  TokenLookup config = "query:" +:+ name ->
  has_byte ":" name = false ->
  Query (Req c) !! name = None ->
  exists h,
    JWTWithConfig Next P config = inr h /\
    serve h c =
    Done (Some JWTMissingErr)
      (answered {| ctx := c; log := [] |} [EvExtract] 401
         (D 401 "JWT ERR: Missing or Malformed JWT")).
Proof.
  intros Hk Hsk H1 H2 Hl Hn Hq.
  assert (Hx : select_extractor (defaults config) = inr (jwtFromQuery name)).
  { unfold select_extractor, defaults; simpl. rewrite Hl.
    change ("query:" +:+ name) with ("query" +:+ String ":" name).
    change (String.eqb ("query" +:+ String ":" name) "") with false. simpl.
    rewrite (Split_no_sep _ _ Hn). reflexivity. }
  exists (gate Next P (defaults config) key (jwtFromQuery name)).
  split; [exact (JWTWithConfig_gate Next P config key _ Hk Hx)|].
  unfold serve.
  apply (gate_missing Next P (defaults config) key (jwtFromQuery name) DefaultSkipper
           {| ctx := c; log := [] |}) with (auth := "").
  - unfold defaults; simpl. now rewrite Hsk.
  - exact H1.
  - exact H2.
  - unfold entered, jwtFromQuery, QueryParam; simpl. now rewrite Hq.
Qed.

Lemma X22_query_lookup_ignores_the_other_sources_witness :
  exists h,
    JWTWithConfig example.test_handler example.verifier (example.lookup_config "query:jwt") =
      inr h /\
    serve h (example.header_request {[ "Authorization" := "Bearer access" ]}) =
    Done (Some JWTMissingErr)
      (answered {| ctx := example.header_request {[ "Authorization" := "Bearer access" ]};
                   log := [] |} [EvExtract] 401
         (D 401 "JWT ERR: Missing or Malformed JWT")).
Proof.
  exact (X22_query_lookup_ignores_the_other_sources example.test_handler example.verifier
           (example.lookup_config "query:jwt") "secret" "jwt"
           (example.header_request {[ "Authorization" := "Bearer access" ]})
           eq_refl eq_refl eq_refl eq_refl eq_refl eq_refl eq_refl).
Defined.

(** ** What every run of the gate keeps *)

Ltac atomic x :=
  lazymatch x with
  | context [match _ with _ => _ end] => fail
  | _ => idtac
  end.

(** Splits a run of the gate into its paths, by the values it branches on. *)
Ltac gate_paths :=
  gate_unfold; unfold classify;
  repeat (simpl;
    match goal with
    | |- context [match ?x with _ => _ end] => atomic x; destruct x eqn:?
    | |- context [if ?x then _ else _] => atomic x; destruct x eqn:?
    end);
  unfold world_of; simpl; rewrite ?app_assoc3, ?drop_app_length, ?drop_all; simpl.

(** X9: whatever the configuration, the request and the verifier's answer,
    every body the gate writes carries status 401 (never 400), is followed by
    the halt of the chain as the gate's last call, and comes with a non-nil
    error returned. *)
Theorem X9_every_rejection_is_401_and_halts
  Next P (config : JWTConfig) (key : string) (extractor : jwtExtractor) (w : World) :
  let r := gate Next P config key extractor w in
  rejects_properly (calls r w) = true /\
  (existsb is_write (calls r w) = true -> exists e w', r = Done (Some e) w').
Proof.
  cbv zeta. unfold calls.
  gate_paths; (split; [reflexivity | try discriminate; eauto]).
Qed.

(** X10: the gate stores nothing but a token the verifier marked valid, under
    the configured context key, and then returns nil. *)
Theorem X10_only_valid_tokens_are_stored
  Next P (config : JWTConfig) (key : string) (extractor : jwtExtractor) (w : World)
  (k : string) (v : Param) :
  let r := gate Next P config key extractor w in
  In (EvSetParam k v) (calls r w) ->
  k = ContextKey config /\
  exists t w', v = PToken t /\ jwt.Valid t = true /\ r = Done None w'.
Proof.
  cbv zeta. unfold calls.
  gate_paths;
    intros H; repeat (destruct H as [H|H]; try discriminate H); try contradiction;
    injection H as <- <-;
    (split; [reflexivity|]);
    match goal with
    | Hb : is_nil _ && jwt.Valid _ = true |- _ =>
        apply andb_true_iff in Hb; destruct Hb
    end;
    eauto.
Qed.

Lemma X10_only_valid_tokens_are_stored_witness :
  "user" = ContextKey (defaults (example.config None None)) /\
  exists t w',
    PToken (jwt.set_Valid example.access_token) = PToken t /\ jwt.Valid t = true /\
    example.installed None None (example.request "Bearer access") = Done None w'.
Proof.
  refine (X10_only_valid_tokens_are_stored example.test_handler example.verifier
            (defaults (example.config None None)) "secret"
            (jwtFromHeader "Authorization" "Bearer") (example.request "Bearer access")
            "user" (PToken (jwt.set_Valid example.access_token)) _).
  vm_compute. right. right. left. reflexivity.
Defined.

(** X11: when the skipper answers false, the success hook and the next
    handler are called only after a token has been stored: no request gets
    past the gate without a token the verifier marked valid. *)
Theorem X11_nothing_passes_without_a_stored_token
  Next P (config : JWTConfig) (key : string) (extractor : jwtExtractor)
  (sk : Skipper) (w : World) :
  skipper config = Some sk -> sk (ctx w) = false ->
  after_store false (calls (gate Next P config key extractor w) w) = true.
Proof.
  intros Hsk Hs. unfold calls. gate_unfold. rewrite Hsk. simpl. rewrite Hs.
  gate_paths; reflexivity.
Qed.

Lemma X11_nothing_passes_without_a_stored_token_witness :
  after_store false
    (calls (example.installed None (Some example.custom_hook) (example.request "Bearer rs256"))
       (example.request "Bearer rs256")) = true.
Proof.
  exact (X11_nothing_passes_without_a_stored_token example.test_handler example.verifier
           (defaults (example.config None (Some example.custom_hook))) "secret"
           (jwtFromHeader "Authorization" "Bearer") DefaultSkipper
           (example.request "Bearer rs256") eq_refl eq_refl).
Defined.

(** X12: when the gate calls an error hook, that call is its last one and it
    writes no body of its own; and [ErrorHandlerWithContext] is called only
    when no [ErrorHandler] is configured. *)
Theorem X12_a_hook_call_ends_the_run
  Next P (config : JWTConfig) (key : string) (extractor : jwtExtractor) (w : World) :
  let r := gate Next P config key extractor w in
  existsb is_hook (calls r w) = true ->
  existsb is_write (calls r w) = false /\
  (exists e, last (calls r w) = Some e /\ is_hook e = true) /\
  (forall err, In (EvErrorHandlerWithContext err) (calls r w) ->
               ErrorHandler config = None).
Proof.
  cbv zeta. unfold calls.
  gate_paths; try discriminate; intros _;
    (split; [reflexivity | split; [eauto|]]);
    intros ? H; repeat (destruct H as [H|H]; try discriminate H); try contradiction; auto.
Qed.

Lemma X12_a_hook_call_ends_the_run_witness :
  let r := gate example.test_handler example.verifier
             (defaults example.context_hook_config) "secret"
             (jwtFromHeader "Authorization" "Bearer") (example.request "") in
  existsb is_write (calls r (example.request "")) = false /\
  (exists e, last (calls r (example.request "")) = Some e /\ is_hook e = true) /\
  (forall err, In (EvErrorHandlerWithContext err) (calls r (example.request "")) ->
               ErrorHandler (defaults example.context_hook_config) = None).
Proof.
  exact (X12_a_hook_call_ends_the_run example.test_handler example.verifier
           (defaults example.context_hook_config) "secret"
           (jwtFromHeader "Authorization" "Bearer") (example.request "") eq_refl).
Defined.

(** X13: the gate returns nil only after it stored a token the verifier
    marked valid, or after a configured error hook answered nil. *)
Theorem X13_nil_is_returned_only_on_admission_or_by_a_hook
  Next P (config : JWTConfig) (key : string) (extractor : jwtExtractor)
  (w w' : World) :
  let r := gate Next P config key extractor w in
  r = Done None w' ->
  (exists t, In (EvSetParam (ContextKey config) (PToken t)) (calls r w) /\
             jwt.Valid t = true) \/
  existsb is_hook (calls r w) = true.
Proof.
  cbv zeta. unfold calls.
  gate_paths; try discriminate; intros H; try (right; reflexivity);
    left;
    match goal with
    | Hb : is_nil _ && jwt.Valid _ = true |- _ =>
        apply andb_true_iff in Hb; destruct Hb
    end;
    eexists; (split; [|eassumption]); simpl; tauto.
Qed.

Lemma X13_nil_is_returned_only_on_admission_or_by_a_hook_witness :
  let r := gate example.test_handler example.verifier
             (defaults example.context_hook_config) "secret"
             (jwtFromHeader "Authorization" "Bearer") (example.request "") in
  (exists t, In (EvSetParam (ContextKey (defaults example.context_hook_config)) (PToken t))
               (calls r (example.request "")) /\
             jwt.Valid t = true) \/
  existsb is_hook (calls r (example.request "")) = true.
Proof.
  refine (X13_nil_is_returned_only_on_admission_or_by_a_hook example.test_handler
            example.verifier (defaults example.context_hook_config) "secret"
            (jwtFromHeader "Authorization" "Bearer") (example.request "")
            (world_of (gate example.test_handler example.verifier
                         (defaults example.context_hook_config) "secret"
                         (jwtFromHeader "Authorization" "Bearer") (example.request ""))) _).
  vm_compute. reflexivity.
Defined.

(** ** Paths the claims leave out *)

(** X14: when the verifier returns no token at all (as it does for a string
    that is not made of three segments), the gate panics on the nil pointer
    right after parsing: no body is written, no hook is called, whatever the
    error returned with the nil token and whatever hooks are configured. *)
Theorem X14_nil_token_panics
  Next P (config : JWTConfig) (key : string) (extractor : jwtExtractor)
  (sk : Skipper) (w : World) (auth : string) (err : option error) :
  skipper config = Some sk ->
  Claims config <> jwt.NilClaims ->
  extractor (ctx (entered Next sk w)) = inr (auth, None) ->
  verified P config key auth = (None, err) ->
  gate Next P config key extractor w =
  Panicked NilDereference
    {| ctx := ctx (entered Next sk w);
       log := log (entered Next sk w) ++ [EvExtract; EvParse auth] |}.
Proof.
  intros Hsk Hcl Hex Hp.
  exact (gate_nil_token Next P config key extractor sk w Hsk auth err Hcl Hex Hp).
Qed.

Lemma X14_nil_token_panics_witness :
  example.installed None (Some example.custom_hook) (example.request "Bearer a.b") =
  Panicked NilDereference
    {| ctx := ctx (example.request "Bearer a.b"); log := [EvExtract; EvParse "a.b"] |}.
Proof.
  refine (X14_nil_token_panics example.test_handler example.verifier
            (defaults (example.config None (Some example.custom_hook))) "secret"
            (jwtFromHeader "Authorization" "Bearer") DefaultSkipper
            (example.request "Bearer a.b") "a.b"
            (Some (ValidationError "token contains an invalid number of segments"
                     jwt.ValidationErrorMalformed))
            eq_refl _ _ _).
  - discriminate.
  - vm_compute. reflexivity.
  - vm_compute. reflexivity.
Defined.

(** X15: when the verifier returns a token that is not a refresh token and
    whose auth_type the gate can read (claims that are not a claim map, or a
    string auth_type other than "refresh"), its rejection is not a validation
    error (a token not marked valid with a nil error, or an error of another
    type) and no hook is configured, no message is chosen and the gate panics
    while rendering the body, before anything is written. *)
Theorem X15_unclassified_rejection_panics
  Next P (config : JWTConfig) (key : string) (extractor : jwtExtractor)
  (sk : Skipper) (w : World) (auth : string) (err : option error) (t : jwt.Token) :
  skipper config = Some sk ->
  ErrorHandler config = None -> ErrorHandlerWithContext config = None ->
  Claims config <> jwt.NilClaims ->
  extractor (ctx (entered Next sk w)) = inr (auth, None) ->
  verified P config key auth = (Some t, err) ->
  plain_token t ->
  refused err t = true ->
  (forall text Errors, err <> Some (ValidationError text Errors)) ->
  classify err http.StatusUnauthorized None = (401%Z, None) /\
  gate Next P config key extractor w =
  Panicked NilDereference
    {| ctx := ctx (entered Next sk w);
       log := log (entered Next sk w) ++ [EvExtract; EvParse auth] |}.
Proof.
  intros Hsk H1 H2 Hcl Hex Hp Hplain Hr Hne. split.
  - now apply classify_other.
  - exact (gate_invalid_unclassified Next P config key extractor sk w Hsk auth err
             Hcl Hex t Hp Hplain Hr Hne H1 H2).
Qed.

Lemma X15_unclassified_rejection_panics_witness :
  classify None http.StatusUnauthorized None = (401%Z, None) /\
  gate example.test_handler example.silent_verifier (defaults (example.config None None))
    "secret" (jwtFromHeader "Authorization" "Bearer") (example.request "Bearer access") =
  Panicked NilDereference
    {| ctx := ctx (example.request "Bearer access");
       log := [EvExtract; EvParse "access"] |}.
Proof.
  refine (X15_unclassified_rejection_panics example.test_handler example.silent_verifier
            (defaults (example.config None None)) "secret"
            (jwtFromHeader "Authorization" "Bearer") DefaultSkipper
            (example.request "Bearer access") "access" None example.access_token
            eq_refl eq_refl eq_refl _ _ _ _ eq_refl _).
  - discriminate.
  - vm_compute. reflexivity.
  - vm_compute. reflexivity.
  - exists "access". split; [vm_compute; reflexivity | discriminate].
  - discriminate.
Defined.

(** X16: with an [ErrorHandler] configured, a missing token is left to it:
    the gate returns what the hook returns for the extraction error, writes
    no body, does not halt the chain, stores nothing and leaves the context
    as it was when extraction started. *)
Theorem X16_missing_token_is_left_to_the_hook
  Next P (config : JWTConfig) (key : string) (extractor : jwtExtractor)
  (sk : Skipper) (w : World) (auth : string) (e : error) (h : JWTErrorHandler) :
  skipper config = Some sk ->
  ErrorHandler config = Some h ->
  extractor (ctx (entered Next sk w)) = inr (auth, Some e) ->
  gate Next P config key extractor w =
  Done (h (Some e))
    {| ctx := ctx (entered Next sk w);
       log := log (entered Next sk w) ++ [EvExtract; EvErrorHandler (Some e)] |}.
Proof.
  intros Hsk H1 Hex.
  exact (gate_missing_ErrorHandler Next P config key extractor sk w Hsk auth e h H1 Hex).
Qed.

Lemma X16_missing_token_is_left_to_the_hook_witness :
  example.installed None (Some example.custom_hook) (example.request "Basic abc") =
  Done (Some (errorString "custom"))
    {| ctx := ctx (example.request "Basic abc");
       log := [EvExtract; EvErrorHandler (Some JWTMissingErr)] |}.
Proof.
  exact (X16_missing_token_is_left_to_the_hook example.test_handler example.verifier
           (defaults (example.config None (Some example.custom_hook))) "secret"
           (jwtFromHeader "Authorization" "Bearer") DefaultSkipper
           (example.request "Basic abc") "" JWTMissingErr example.custom_hook
           eq_refl eq_refl eq_refl).
Defined.

(** X17: with an [ErrorHandler] configured, a rejection by the verifier that
    comes with a token that is not a refresh token and whose auth_type the
    gate can read (claims that are not a claim map, or a string auth_type
    other than "refresh") is left to the hook: the hook is given the
    verifier's own error (nil when the verifier gave none), not the
    classified one, and the gate returns the hook's answer without writing,
    halting, storing or calling the next handler, even when that answer is
    nil. *)
Theorem X17_rejected_token_is_left_to_the_hook
  Next P (config : JWTConfig) (key : string) (extractor : jwtExtractor)
  (sk : Skipper) (w : World) (auth : string) (err : option error) (t : jwt.Token)
  (h : JWTErrorHandler) :
  skipper config = Some sk ->
  ErrorHandler config = Some h ->
  Claims config <> jwt.NilClaims ->
  extractor (ctx (entered Next sk w)) = inr (auth, None) ->
  verified P config key auth = (Some t, err) ->
  plain_token t ->
  refused err t = true ->
  gate Next P config key extractor w =
  Done (h err)
    {| ctx := ctx (entered Next sk w);
       log := log (entered Next sk w) ++ [EvExtract; EvParse auth; EvErrorHandler err] |}.
Proof.
  intros Hsk H1 Hcl Hex Hp Hplain Hr.
  exact (gate_invalid_ErrorHandler Next P config key extractor sk w Hsk auth err
           Hcl Hex t Hp Hplain h Hr H1).
Qed.

Lemma X17_rejected_token_is_left_to_the_hook_witness :
  gate example.test_handler example.silent_verifier
    (defaults (example.config None (Some (fun e => e)))) "secret"
    (jwtFromHeader "Authorization" "Bearer") (example.request "Bearer access") =
  Done None
    {| ctx := ctx (example.request "Bearer access");
       log := [EvExtract; EvParse "access"; EvErrorHandler None] |}.
Proof.
  refine (X17_rejected_token_is_left_to_the_hook example.test_handler
            example.silent_verifier
            (defaults (example.config None (Some (fun e => e)))) "secret"
            (jwtFromHeader "Authorization" "Bearer") DefaultSkipper
            (example.request "Bearer access") "access" None example.access_token
            (fun e => e) eq_refl eq_refl _ _ _ _ eq_refl).
  - discriminate.
  - vm_compute. reflexivity.
  - vm_compute. reflexivity.
  - exists "access". split; [vm_compute; reflexivity | discriminate].
Defined.

(** X18: with only an [ErrorHandlerWithContext] configured, a rejection by
    the verifier that comes with a token that is not a refresh token and
    whose auth_type the gate can read (claims that are not a claim map, or a
    string auth_type other than "refresh") is left to the hook: the hook is
    given the verifier's error and the context as extraction found it, and
    the context and the error it returns are what the gate leaves and
    returns. *)
Theorem X18_rejected_token_is_left_to_the_context_hook
  Next P (config : JWTConfig) (key : string) (extractor : jwtExtractor)
  (sk : Skipper) (w : World) (auth : string) (err : option error) (t : jwt.Token)
  (h : JWTErrorHandlerWithContext) :
  skipper config = Some sk ->
  ErrorHandler config = None -> ErrorHandlerWithContext config = Some h ->
  Claims config <> jwt.NilClaims ->
  extractor (ctx (entered Next sk w)) = inr (auth, None) ->
  verified P config key auth = (Some t, err) ->
  plain_token t ->
  refused err t = true ->
  gate Next P config key extractor w =
  Done (h err (ctx (entered Next sk w))).2
    {| ctx := (h err (ctx (entered Next sk w))).1;
       log := log (entered Next sk w) ++
              [EvExtract; EvParse auth; EvErrorHandlerWithContext err] |}.
Proof.
  intros Hsk H1 H2 Hcl Hex Hp Hplain Hr.
  exact (gate_invalid_ErrorHandlerWithContext Next P config key extractor sk w Hsk auth
           err Hcl Hex t Hp Hplain h Hr H1 H2).
Qed.

Lemma X18_rejected_token_is_left_to_the_context_hook_witness :
  gate example.test_handler example.verifier (defaults example.context_hook_config)
    "secret" (jwtFromHeader "Authorization" "Bearer") (example.request "Bearer rs256") =
  Done None
    {| ctx := {| Req := Req (ctx (example.request "Bearer rs256")); Params := ∅;
                 Response := [{| Status := 403; Payload := Text "forbidden" |}];
                 Aborted := false |};
       log := [EvExtract; EvParse "rs256";
               EvErrorHandlerWithContext
                 (Some (ValidationError "unexpected jwt signing method=RS256"
                          jwt.ValidationErrorUnverifiable))] |}.
Proof.
  refine (X18_rejected_token_is_left_to_the_context_hook example.test_handler
            example.verifier (defaults example.context_hook_config) "secret"
            (jwtFromHeader "Authorization" "Bearer") DefaultSkipper
            (example.request "Bearer rs256") "rs256"
            (Some (ValidationError "unexpected jwt signing method=RS256"
                     jwt.ValidationErrorUnverifiable))
            example.rs256_token example.context_hook
            eq_refl eq_refl eq_refl _ _ _ _ eq_refl).
  - discriminate.
  - vm_compute. reflexivity.
  - vm_compute. reflexivity.
  - exists "access". split; [vm_compute; reflexivity | discriminate].
Defined.

(** X19: a request that is not skipped and whose token the verifier accepts,
    the token being no refresh token and its auth_type one the gate can read
    (claims that are not a claim map, or a string auth_type other than
    "refresh"), is passed on exactly once, with the token stored: the success
    hook and the next handler find the token under the context key, where it
    replaces whatever was stored before, and every other stored value, the
    request and the response as they were; the gate returns nil. *)
Theorem X19_admission_stores_the_token
  Next P (config : JWTConfig) (key : string) (extractor : jwtExtractor)
  (sk : Skipper) (w : World) (auth : string) (t : jwt.Token) :
  skipper config = Some sk -> sk (ctx w) = false ->
  Claims config <> jwt.NilClaims ->
  extractor (ctx w) = inr (auth, None) ->
  verified P config key auth = (Some t, None) ->
  jwt.Valid t = true ->
  plain_token t ->
  let stored := SetParam (ContextKey config) (PToken t) (ctx w) in
  gate Next P config key extractor w =
  Done None
    {| ctx := Next (match SuccessHandler config with
                    | Some h => h stored
                    | None => stored
                    end);
       log := log w ++
              [EvExtract; EvParse auth; EvSetParam (ContextKey config) (PToken t)] ++
              match SuccessHandler config with
              | Some _ => [EvSuccessHandler]
              | None => []
              end ++ [EvNext] |} /\
  GetParam stored (ContextKey config) = PToken t /\
  (forall k, k <> ContextKey config -> GetParam stored k = GetParam (ctx w) k) /\
  Req stored = Req (ctx w) /\ Response stored = Response (ctx w) /\
  Aborted stored = Aborted (ctx w).
Proof.
  intros Hsk Hs Hcl Hex Hp Hv Hplain stored.
  assert (Hw : entered Next sk w = w) by (unfold entered; now rewrite Hs).
  split.
  - rewrite <- Hw in Hex.
    rewrite (gate_valid Next P config key extractor sk w Hsk auth None Hcl Hex t Hp
               Hplain eq_refl Hv).
    rewrite Hw. reflexivity.
  - unfold stored, GetParam, SetParam; simpl. split; [|split; [|auto]].
    + now rewrite lookup_insert_eq.
    + intros k Hk. now rewrite lookup_insert_ne.
Qed.

Lemma X19_admission_stores_the_token_witness :
  let stored := SetParam "user" (PToken (jwt.set_Valid example.access_token))
                  (ctx (example.request "Bearer access")) in
  example.installed None None (example.request "Bearer access") =
  Done None
    {| ctx := example.test_handler stored;
       log := [EvExtract; EvParse "access";
               EvSetParam "user" (PToken (jwt.set_Valid example.access_token)); EvNext] |} /\
  GetParam stored "user" = PToken (jwt.set_Valid example.access_token) /\
  (forall k, k <> "user" -> GetParam stored k = GetParam (ctx (example.request "Bearer access")) k) /\
  Req stored = Req (ctx (example.request "Bearer access")) /\
  Response stored = Response (ctx (example.request "Bearer access")) /\
  Aborted stored = Aborted (ctx (example.request "Bearer access")).
Proof.
  refine (X19_admission_stores_the_token example.test_handler example.verifier
            (defaults (example.config None None)) "secret"
            (jwtFromHeader "Authorization" "Bearer") DefaultSkipper
            (example.request "Bearer access") "access"
            (jwt.set_Valid example.access_token)
            eq_refl eq_refl _ _ _ eq_refl _).
  - discriminate.
  - vm_compute. reflexivity.
  - vm_compute. reflexivity.
  - exists "access". split; [vm_compute; reflexivity | discriminate].
Defined.

(** ** The request logger and the error table *)

(** The table holds a message exactly for the known statuses. *)
Lemma HTTPErrorMessages_known (status : Z) :
  is_Some (HTTPErrorMessages !! status) <-> In status known_statuses.
Proof.
  unfold HTTPErrorMessages, known_statuses. split.
  - intros [msg Hm]. apply elem_of_list_to_map_2 in Hm.
    repeat (apply elem_of_cons in Hm as [Hm|Hm];
            [injection Hm as -> _; simpl; tauto|]).
    now apply elem_of_nil in Hm.
  - simpl. intros H.
    repeat (destruct H as [<-|H]; [vm_compute; eauto|]). contradiction.
Qed.

(** X20: the logger runs the rest of the chain and then returns nil with one
    line, whose first two fields are the response status and the table's
    message for it, exactly when the status is one of the thirteen the error
    table knows; for any other status (204, 201, 302, ...) it panics on the
    missing table entry, after the chain has run and without logging. *)
Theorem X20_logger_needs_a_known_status
  (Next : Context -> Context) (Status : Context -> Z) (Itoa : Z -> string)
  (elapsed : string) (Host RemoteAddr UserAgent Method RequestURI : Context -> string)
  (c : Context) :
  let run := Logger Next Status Itoa elapsed Host RemoteAddr UserAgent Method RequestURI c in
  let s := Status (Next c) in
  (In s known_statuses ->
   exists level msg,
     HTTPErrorMessages !! s = Some msg /\
     run = LogReturned (Next c) level
             (Itoa s +:+ " | " +:+ Error msg +:+ " | " +:+ elapsed +:+ " | " +:+
              Host (Next c) +:+ " | " +:+ RemoteAddr (Next c) +:+ " | " +:+
              UserAgent (Next c) +:+ " | " +:+ Method (Next c) +:+ " | " +:+
              RequestURI (Next c)) None) /\
  (~ In s known_statuses -> run = LogPanicked (Next c) NilDereference).
Proof.
  cbv zeta. unfold Logger. split.
  - intros Hs. apply HTTPErrorMessages_known in Hs as [msg Hm]. rewrite Hm.
    destruct (400 <=? Status (Next c))%Z; eauto.
  - intros Hs. destruct (HTTPErrorMessages !! Status (Next c)) as [msg|] eqn:Hm;
      [|reflexivity].
    exfalso. apply Hs, HTTPErrorMessages_known. eauto.
Qed.

(** X21: the logger logs at the info level only a response with status 200:
    every other status it can log at all is an error line. *)
Theorem X21_logger_info_is_status_200
  (Next : Context -> Context) (Status : Context -> Z) (Itoa : Z -> string)
  (elapsed : string) (Host RemoteAddr UserAgent Method RequestURI : Context -> string)
  (c c' : Context) (level : Level) (line : string) (ret : option error) :
  Logger Next Status Itoa elapsed Host RemoteAddr UserAgent Method RequestURI c =
    LogReturned c' level line ret ->
  ret = None /\ c' = Next c /\
  (level = LevelInfo /\ Status (Next c) = 200%Z \/
   level = LevelError /\ In (Status (Next c)) known_statuses /\ (400 <= Status (Next c))%Z).
Proof.
  unfold Logger.
  destruct (HTTPErrorMessages !! Status (Next c)) as [msg|] eqn:Hm; [|discriminate].
  assert (Hk : In (Status (Next c)) known_statuses)
    by (apply HTTPErrorMessages_known; eauto).
  destruct (400 <=? Status (Next c))%Z eqn:Hge.
  - intros [= <- <- _ <-]. apply Z.leb_le in Hge. auto 6.
  - intros [= <- <- _ <-]. apply Z.leb_gt in Hge.
    split; [reflexivity|]. split; [reflexivity|]. left. split; [reflexivity|].
    unfold known_statuses in Hk. simpl in Hk.
    repeat (destruct Hk as [Hk|Hk]; [lia|]). contradiction.
Qed.

Lemma X21_logger_info_is_status_200_witness :
  let c := example.header_request ∅ in
  Logger example.test_handler example.last_status (fun _ => "200") "1ms"
    (fun _ => "localhost:9528") (fun _ => "127.0.0.1") (fun _ => "curl")
    (fun _ => "GET") (fun _ => "/") c =
  LogReturned (example.test_handler c) LevelInfo
    "200 | Success | 1ms | localhost:9528 | 127.0.0.1 | curl | GET | /" None /\
  (@None error = None /\ example.test_handler c = example.test_handler c /\
   (LevelInfo = LevelInfo /\ example.last_status (example.test_handler c) = 200%Z \/
    LevelInfo = LevelError /\
    In (example.last_status (example.test_handler c)) known_statuses /\
    (400 <= example.last_status (example.test_handler c))%Z)).
Proof.
  split; [vm_compute; reflexivity|].
  exact (X21_logger_info_is_status_200 example.test_handler example.last_status
           (fun _ => "200") "1ms" (fun _ => "localhost:9528") (fun _ => "127.0.0.1")
           (fun _ => "curl") (fun _ => "GET") (fun _ => "/")
           (example.header_request ∅) (example.test_handler (example.header_request ∅))
           LevelInfo
           "200 | Success | 1ms | localhost:9528 | 127.0.0.1 | curl | GET | /"
           None eq_refl).
Defined.

(** A chain that answers 204, a status the table does not know, makes the
    logger panic. *)
Example logger_panics_on_204 :
  Logger (Json 204 (Text "")) example.last_status (fun _ => "204") "1ms"
    (fun _ => "localhost:9528") (fun _ => "127.0.0.1") (fun _ => "curl")
    (fun _ => "OPTIONS") (fun _ => "/") (example.header_request ∅) =
  LogPanicked (Json 204 (Text "") (example.header_request ∅)) NilDereference.
Proof. vm_compute. reflexivity. Qed.
